(** * vaxp_dock: the dock window runner and the themed icon path resolver

    A shallow embedding of [linux/runner/my_application.cc] and
    [src/icon_loader.c].  The two translation units are independent; each
    gets a module of its own.  The toolkit (GTK, GDK, Xlib, GLib, the C
    library) is not part of the repository: the few operations the code
    calls are modelled as primitives over an explicit world, and everything
    the code does is written in terms of those primitives, one source
    statement per line.

    Part I holds the definitions, Part II the theorems, Part III further
    properties of the same code. *)

From Stdlib Require Import ZArith QArith Lia.
From stdpp Require Import gmap strings list fin_maps.

Local Open Scope Z_scope.

(** * Part I: definitions *)

(** ** C integers and doubles *)

Module CInt.

Definition INT_MAX : Z := 2147483647.
Definition INT_MIN : Z := -2147483648.

(** The values of a 32-bit [int]. *)
Definition int_range (z : Z) : Prop := INT_MIN <= z <= INT_MAX.

(** Reduction of a mathematical integer to a 32-bit two's complement
    [int]. *)
Definition wrap (z : Z) : Z := (z + 2 ^ 31) mod 2 ^ 32 - 2 ^ 31.

Definition int_add (a b : Z) : Z := wrap (a + b).
Definition int_sub (a b : Z) : Z := wrap (a - b).

(** A [double].  Every double the runner computes is the product of a
    small constant and an [int], an integer of magnitude below [2^53], on
    which IEEE arithmetic is exact; rationals stand for them. *)
Definition double : Type := Q.

Definition int_to_double (i : Z) : double := inject_Z i.
Definition double_mul (a b : double) : double := Qmult a b.

(** Conversion of a double to [int]: the fractional part is discarded
    (truncation toward zero).  A value that does not fit is undefined in
    C++; x86-64 yields the "integer indefinite" value [INT_MIN], which is
    what is modelled. *)
Definition double_to_int (d : double) : Z :=
  let t := Z.quot (Qnum d) (Z.pos (Qden d)) in
  if (INT_MIN <=? t) && (t <=? INT_MAX) then t else INT_MIN.

End CInt.

(** ** A state monad with a crash outcome, for the C code *)

Inductive outcome (S A : Type) : Type :=
| Ok (a : A) (s : S)
| Crash.
Arguments Ok {S A} a s.
Arguments Crash {S A}.

Definition exec (S A : Type) : Type := S -> outcome S A.

#[global] Instance exec_ret {S} : MRet (exec S) := fun A a s => Ok a s.
#[global] Instance exec_bind {S} : MBind (exec S) := fun A B f m s =>
  match m s with
  | Ok a s' => f a s'
  | Crash => Crash
  end.

(** ** icon_loader.c *)

Module IconLoader.

(** A [char*] result: [None] is [NULL], [Some b] the address of a block
    obtained from [malloc]. *)
Definition block : Type := positive.
Definition char_ptr : Type := option block.

Inductive GtkIconLookupFlags : Type :=
| GTK_ICON_LOOKUP_FORCE_SIZE.

(** What the theme hands back for a match: the identity of the
    [GtkIconInfo] object and the file name it holds.  The file name of an
    icon info can be [NULL]. *)
Record GtkIconInfo : Type := {
  info_object : positive;
  info_filename : option string;
}.

(** The icon theme, as far as [get_icon_path] can observe it: which
    (name, size, flags) have a match. *)
Record GtkIconTheme : Type := {
  theme_lookup : string -> Z -> GtkIconLookupFlags -> option GtkIconInfo;
}.

Record world : Type := {
  (** the theme of the default screen; [NULL] when there is none *)
  default_theme : option GtkIconTheme;
  (** the blocks of the C heap that hold strings *)
  heap : gmap block string;
  (** bytes [malloc] can still hand out *)
  mem_left : nat;
  (** reference counts of the live [GtkIconInfo] objects *)
  refs : gmap positive positive;
  (** GLib "critical" assertion failures reported so far *)
  criticals : nat;
}.

Definition set_heap (h : gmap block string) (m : nat) (w : world) : world :=
  {| default_theme := default_theme w; heap := h; mem_left := m;
     refs := refs w; criticals := criticals w |}.

Definition set_refs (r : gmap positive positive) (w : world) : world :=
  {| default_theme := default_theme w; heap := heap w; mem_left := mem_left w;
     refs := r; criticals := criticals w |}.

(** [g_return_val_if_fail]: report and carry on. *)
Definition g_critical (w : world) : world :=
  {| default_theme := default_theme w; heap := heap w; mem_left := mem_left w;
     refs := refs w; criticals := S (criticals w) |}.

(** *** The C library *)

(** [strdup(s)]: a fresh block holding a copy of [s], or [NULL] when the
    memory is exhausted.  [strdup(NULL)] reads through a null pointer. *)
Definition strdup (s : option string) : exec world char_ptr := fun w =>
  match s with
  | None => Crash
  | Some str =>
      let n := S (String.length str) in
      if decide (n <= mem_left w)%nat then
        let b := fresh (dom (heap w)) in
        Ok (Some b) (set_heap (<[b := str]> (heap w)) (mem_left w - n) w)
      else Ok None w
  end.

(** [free(p)]: nothing for [NULL]; releases a live block; anything else
    (a dangling pointer, a second free) is undefined. *)
Definition free (p : char_ptr) : exec world unit := fun w =>
  match p with
  | None => Ok tt w
  | Some b =>
      match heap w !! b with
      | Some str =>
          Ok tt (set_heap (delete b (heap w))
                          (mem_left w + S (String.length str)) w)
      | None => Crash
      end
  end.

(** *** GTK and GObject *)

(** The theme of the default screen.  Without a default screen the
    screen check of [gtk_icon_theme_get_for_screen] fails: a critical is
    reported and [NULL] returned. *)
Definition gtk_icon_theme_get_default : exec world (option GtkIconTheme) :=
  fun w =>
  match default_theme w with
  | Some th => Ok (Some th) w
  | None => Ok None (g_critical w)
  end.

Definition g_object_ref (o : positive) (w : world) : world :=
  match refs w !! o with
  | Some n => set_refs (<[o := Pos.succ n]> (refs w)) w
  | None => set_refs (<[o := 1%positive]> (refs w)) w
  end.

(** The caller receives a reference of its own on the icon info. *)
Definition gtk_icon_theme_lookup_icon (theme : option GtkIconTheme)
    (icon_name : option string) (size : Z) (flags : GtkIconLookupFlags)
  : exec world (option GtkIconInfo) := fun w =>
  match theme, icon_name with
  | Some th, Some name =>
      match theme_lookup th name size flags with
      | Some info => Ok (Some info) (g_object_ref (info_object info) w)
      | None => Ok None w
      end
  | _, _ => Ok None (g_critical w)
  end.

Definition gtk_icon_info_get_filename (info : option GtkIconInfo)
  : exec world (option string) := fun w =>
  match info with
  | Some i => Ok (info_filename i) w
  | None => Ok None (g_critical w)
  end.

(** Drops one reference; the object goes away with its last one. *)
Definition g_object_unref (info : option GtkIconInfo) : exec world unit :=
  fun w =>
  match info with
  | Some i =>
      match refs w !! info_object i with
      | Some 1%positive => Ok tt (set_refs (delete (info_object i) (refs w)) w)
      | Some n => Ok tt (set_refs (<[info_object i := Pos.pred n]> (refs w)) w)
      | None => Ok tt (g_critical w)
      end
  | None => Ok tt (g_critical w)
  end.

(** *** The two functions of the file *)

Definition get_icon_path (icon_name : option string) (size : Z)
  : exec world char_ptr :=
  theme ← gtk_icon_theme_get_default;
  match theme with
  | None => mret None
  | Some _ =>
      info ← gtk_icon_theme_lookup_icon theme icon_name size
               GTK_ICON_LOOKUP_FORCE_SIZE;
      match info with
      | None => mret None
      | Some _ =>
          path ← gtk_icon_info_get_filename info;
          result ← match path with
                   | Some _ => strdup path
                   | None => mret None
                   end;
          g_object_unref info;;
          mret result
      end
  end.

Definition free_icon_path (path : char_ptr) : exec world unit :=
  free path.

(** *** A concrete desktop, for examples *)

Definition folder_png : string := "/usr/share/icons/hicolor/48x48/places/folder.png".

(** A theme that knows ["folder"] at every size, a file-less
    ["builtin-missing"], and nothing else. *)
Definition hicolor : GtkIconTheme :=
  {| theme_lookup := fun name size flags =>
       if String.eqb name "folder"
       then Some {| info_object := 7; info_filename := Some folder_png |}
       else if String.eqb name "builtin-missing"
       then Some {| info_object := 9; info_filename := None |}
       else None |}.

Definition desktop : world :=
  {| default_theme := Some hicolor; heap := ∅; mem_left := 4096;
     refs := ∅; criticals := 0 |}.

Definition headless : world :=
  {| default_theme := None; heap := ∅; mem_left := 4096;
     refs := ∅; criticals := 0 |}.

(** Where the first and the second call for ["folder"] at 48 pixels
    leave [desktop]. *)
Definition desktop_1 : world :=
  set_heap {[ 1%positive := folder_png ]} 4047 desktop.

Definition desktop_2 : world :=
  set_heap (<[ 2%positive := folder_png ]> {[ 1%positive := folder_png ]})
           3998 desktop.

End IconLoader.

(** ** linux/runner/my_application.cc *)

Module Runner.
Import CInt.

(** The runner never fails on a path of its own; a plain state monad
    threads the world through the toolkit calls. *)
Definition state (S A : Type) : Type := S -> A * S.

#[global] Instance state_ret {S} : MRet (state S) := fun A a s => (a, s).
#[global] Instance state_bind {S} : MBind (state S) := fun A B f m s =>
  let (a, s') := m s in f a s'.

(** *** What the display reports *)

Record GdkRectangle : Type := {
  rect_x : Z;
  rect_y : Z;
  rect_width : Z;
  rect_height : Z;
}.

Record GdkMonitor : Type := {
  monitor_geometry : GdkRectangle;
  monitor_scale_factor : Z;
}.

Inductive GdkBackend : Type :=
| X11
| Wayland.

Record Display : Type := {
  (** the runner takes the primary monitor as given; it does not check
      for [NULL] *)
  primary_monitor : GdkMonitor;
  (** whether the screen has an alpha-capable visual *)
  rgba_visual : bool;
  backend : GdkBackend;
  (** whether GDK was built with [GDK_WINDOWING_X11] *)
  GDK_WINDOWING_X11 : bool;
  (** the [GError] message of [g_application_register], if it fails *)
  register_error : option string;
}.

(** *** The application object *)

Record MyApplication : Type := {
  dart_entrypoint_arguments : option (list string);
  window_height : Z;
  window_width : Z;
  bottom_margin : Z;
}.

(** *** Widgets, signal connections, window properties *)

Inductive widget_class : Type :=
| GtkApplicationWindow
| FlView.

(** Widgets are named by their index in the store; a toplevel's
    [GdkWindow] and X window are named like the widget.  [realized] says
    whether the widget has its windowing-system resources; before that,
    [gtk_widget_get_window] gives [NULL].  A widget becomes realized by
    [gtk_widget_realize], by being shown if it is a toplevel, and by coming
    into a realized container. *)
Record GtkWidget : Type := {
  wclass : widget_class;
  visible : bool;
  realized : bool;
  parent : option nat;
  (** the position last asked for with [gtk_window_move] *)
  position : option (Z * Z);
}.

Inductive GdkWindowTypeHint : Type :=
| GDK_WINDOW_TYPE_HINT_NORMAL
| GDK_WINDOW_TYPE_HINT_DOCK.

(** Atoms are named by the string they intern. *)
Inductive XData : Type :=
| XAtoms (atoms : list string)
| XLongs (longs : list Z).

Record XProperty : Type := {
  prop_type : string;
  prop_format : Z;
  prop_data : XData;
}.

(** The log of the calls that act on the toolkit or on the X server,
    in the order the program makes them.  Calls that only read (the
    getters of widgets, screen, display and monitor, the [GDK_...] macros)
    are not logged.  [c_fl_view_new] stands for the construction of the
    view together with its project ([fl_dart_project_new],
    [fl_dart_project_set_dart_entrypoint_arguments], [fl_view_new]), and
    [c_fl_view_set_background_color] carries the colour string handed to
    [gdk_rgba_parse]. *)
Inductive call : Type :=
| c_gtk_application_window_new (w : nat)
| c_gtk_widget_set_app_paintable (w : nat) (b : bool)
| c_gtk_widget_set_visual (w : nat)
| c_gtk_window_set_default_size (w : nat) (width height : Z)
| c_gtk_widget_set_size_request (w : nat) (width height : Z)
| c_gtk_window_set_decorated (w : nat) (b : bool)
| c_gtk_window_stick (w : nat)
| c_gtk_window_set_keep_above (w : nat) (b : bool)
| c_gtk_window_set_type_hint (w : nat) (hint : GdkWindowTypeHint)
| c_gtk_widget_realize (w : nat)
| c_gtk_window_move (w : nat) (x y : Z)
| c_fl_view_new (v : nat) (arguments : option (list string))
| c_fl_view_set_background_color (v : nat) (rgba : string)
| c_gtk_widget_show (w : nat)
| c_gtk_container_add (container child : nat)
| c_g_signal_connect_swapped (instance : nat) (detailed_signal : string)
| c_fl_register_plugins (v : nat)
| c_gtk_widget_grab_focus (w : nat)
| c_XInternAtom (atom_name : string)
| c_XChangeProperty (xid : nat) (property : string) (p : XProperty)
| c_XSetInputFocus_None
| c_XFlush
| c_g_warning (message : string)
| c_g_application_register
| c_g_application_activate
| c_first_frame_cb (view : nat).

Record World : Type := {
  display : Display;
  self : MyApplication;
  widgets : list GtkWidget;
  (** the handlers connected so far: instance and signal; the one callback
      the program ever connects is [first_frame_cb], with [self] as data *)
  connections : list (nat * string);
  (** the properties of the X windows *)
  xprops : gmap (nat * string) XProperty;
  log : list call;
}.

Definition with_self (a : MyApplication) (W : World) : World :=
  {| display := display W; self := a; widgets := widgets W;
     connections := connections W; xprops := xprops W; log := log W |}.

Definition with_widgets (ws : list GtkWidget) (W : World) : World :=
  {| display := display W; self := self W; widgets := ws;
     connections := connections W; xprops := xprops W; log := log W |}.

Definition with_connections (cs : list (nat * string)) (W : World) : World :=
  {| display := display W; self := self W; widgets := widgets W;
     connections := cs; xprops := xprops W; log := log W |}.

Definition with_xprops (ps : gmap (nat * string) XProperty) (W : World)
  : World :=
  {| display := display W; self := self W; widgets := widgets W;
     connections := connections W; xprops := ps; log := log W |}.

Definition with_log (l : list call) (W : World) : World :=
  {| display := display W; self := self W; widgets := widgets W;
     connections := connections W; xprops := xprops W; log := l |}.

Definition logged (c : call) : state World unit := fun W =>
  (tt, with_log (log W ++ [c]) W).

Definition update_widget (w : nat) (f : GtkWidget -> GtkWidget)
  : state World unit := fun W =>
  (tt, with_widgets (alter f w (widgets W)) W).

Definition new_widget (c : widget_class) : state World nat := fun W =>
  (length (widgets W),
   with_widgets (widgets W ++ [{| wclass := c; visible := false;
                                  realized := false; parent := None;
                                  position := None |}]) W).

Definition set_visible (b : bool) (wd : GtkWidget) : GtkWidget :=
  {| wclass := wclass wd; visible := b; realized := realized wd;
     parent := parent wd; position := position wd |}.

Definition set_realized (b : bool) (wd : GtkWidget) : GtkWidget :=
  {| wclass := wclass wd; visible := visible wd; realized := b;
     parent := parent wd; position := position wd |}.

Definition set_parent (p : option nat) (wd : GtkWidget) : GtkWidget :=
  {| wclass := wclass wd; visible := visible wd; realized := realized wd;
     parent := p; position := position wd |}.

Definition set_position (xy : Z * Z) (wd : GtkWidget) : GtkWidget :=
  {| wclass := wclass wd; visible := visible wd; realized := realized wd;
     parent := parent wd; position := Some xy |}.

(** *** GTK, GDK and the Flutter embedder *)

Definition gtk_application_window_new : state World nat :=
  w ← new_widget GtkApplicationWindow;
  logged (c_gtk_application_window_new w);;
  mret w.

Definition gtk_widget_set_app_paintable (w : nat) (b : bool)
  : state World unit := logged (c_gtk_widget_set_app_paintable w b).

Definition gdk_screen_get_rgba_visual : state World bool :=
  fun W => (rgba_visual (display W), W).

Definition gtk_widget_set_visual (w : nat) : state World unit :=
  logged (c_gtk_widget_set_visual w).

Definition gdk_display_get_primary_monitor : state World GdkMonitor :=
  fun W => (primary_monitor (display W), W).

Definition gtk_window_set_default_size (w : nat) (width height : Z)
  : state World unit := logged (c_gtk_window_set_default_size w width height).

Definition gtk_widget_set_size_request (w : nat) (width height : Z)
  : state World unit := logged (c_gtk_widget_set_size_request w width height).

Definition gtk_window_set_decorated (w : nat) (b : bool) : state World unit :=
  logged (c_gtk_window_set_decorated w b).

Definition gtk_window_stick (w : nat) : state World unit :=
  logged (c_gtk_window_stick w).

Definition gtk_window_set_keep_above (w : nat) (b : bool)
  : state World unit := logged (c_gtk_window_set_keep_above w b).

Definition gtk_window_set_type_hint (w : nat) (hint : GdkWindowTypeHint)
  : state World unit := logged (c_gtk_window_set_type_hint w hint).

(** Realizing creates the windowing-system resource; it shows nothing. *)
Definition gtk_widget_realize (w : nat) : state World unit :=
  update_widget w (set_realized true);;
  logged (c_gtk_widget_realize w).

Definition gtk_window_move (w : nat) (x y : Z) : state World unit :=
  update_widget w (set_position (x, y));;
  logged (c_gtk_window_move w x y).

Definition fl_view_new (arguments : option (list string)) : state World nat :=
  v ← new_widget FlView;
  logged (c_fl_view_new v arguments);;
  mret v.

Definition fl_view_set_background_color (v : nat) (rgba : string)
  : state World unit := logged (c_fl_view_set_background_color v rgba).

(** What [gtk_widget_show] does to a widget.  A toplevel window is
    mapped, which realizes it first if need be; any other widget gets its
    visible flag set (the program shows such a widget only while it has no
    parent).  The children of the program's windows are realized from the
    moment they are added, the windows being realized by then, so mapping
    a window has nothing left to realize below it. *)
Definition show_widget (wd : GtkWidget) : GtkWidget :=
  {| wclass := wclass wd; visible := true;
     realized := match wclass wd with
                 | GtkApplicationWindow => true
                 | FlView => realized wd
                 end;
     parent := parent wd; position := position wd |}.

Definition gtk_widget_show (w : nat) : state World unit :=
  update_widget w show_widget;;
  logged (c_gtk_widget_show w).

(** [gtk_container_add] makes the container the child's parent; a child
    that comes into a realized container is realized on the spot
    ([gtk_widget_set_parent] keeps that invariant). *)
Definition gtk_container_add (container child : nat) : state World unit :=
  fun W =>
  let into_realized :=
    match widgets W !! container with
    | Some wd => realized wd
    | None => false
    end in
  (update_widget child
     (fun wd => set_parent (Some container)
                  (if into_realized then set_realized true wd else wd));;
   logged (c_gtk_container_add container child)) W.

(** The connection stays until someone disconnects it; nothing in the
    program does. *)
Definition g_signal_connect_swapped (instance : nat) (detailed_signal : string)
  : state World unit := fun W =>
  logged (c_g_signal_connect_swapped instance detailed_signal)
    (with_connections (connections W ++ [(instance, detailed_signal)]) W).

Definition fl_register_plugins (v : nat) : state World unit :=
  logged (c_fl_register_plugins v).

Definition gtk_widget_grab_focus (w : nat) : state World unit :=
  logged (c_gtk_widget_grab_focus w).

(** The topmost ancestor: follow [parent] until there is none. *)
Fixpoint toplevel_of (ws : list GtkWidget) (fuel : nat) (w : nat) : nat :=
  match fuel with
  | O => w
  | S fuel' =>
      match ws !! w with
      | Some wd =>
          match parent wd with
          | Some p => toplevel_of ws fuel' p
          | None => w
          end
      | None => w
      end
  end.

Definition gtk_widget_get_toplevel (w : nat) : state World nat := fun W =>
  (toplevel_of (widgets W) (length (widgets W)) w, W).

(** The [GdkWindow] of a widget: [NULL] until the widget is realized. *)
Definition gtk_widget_get_window (w : nat) : state World (option nat) :=
  fun W =>
  (match widgets W !! w with
   | Some wd => if realized wd then Some w else None
   | None => None
   end, W).

Definition GDK_IS_X11_WINDOW (gdk_window : option nat) : state World bool :=
  fun W =>
  (match gdk_window, backend (display W) with
   | Some _, X11 => true
   | _, _ => false
   end, W).

(** *** Xlib *)

Definition XA_ATOM : string := "ATOM".
Definition XA_CARDINAL : string := "CARDINAL".

(** [XInternAtom (xdisplay, atom_name, False)]: the atom of that name,
    created if it does not exist yet.  Atoms are named by their string. *)
Definition XInternAtom (atom_name : string) : state World string := fun W =>
  (atom_name, with_log (log W ++ [c_XInternAtom atom_name]) W).

(** [XChangeProperty] in [PropModeReplace]: the first [nelements] items
    of the array become the value of the property. *)
Definition XChangeProperty (xid : nat) (property type : string) (format : Z)
    (data : XData) (nelements : nat) : state World unit := fun W =>
  let p := {| prop_type := type; prop_format := format;
              prop_data := match data with
                           | XAtoms l => XAtoms (take nelements l)
                           | XLongs l => XLongs (take nelements l)
                           end |} in
  logged (c_XChangeProperty xid property p)
    (with_xprops (<[(xid, property) := p]> (xprops W)) W).

Definition XSetInputFocus_None : state World unit :=
  logged c_XSetInputFocus_None.

Definition XFlush : state World unit := logged c_XFlush.

(** *** The functions of the file *)

Definition get_self : state World MyApplication := fun W => (self W, W).

Definition get_display : state World Display := fun W => (display W, W).

Definition store_geometry (h w m : Z) : state World unit := fun W =>
  (tt, with_self {| dart_entrypoint_arguments :=
                      dart_entrypoint_arguments (self W);
                    window_height := h; window_width := w;
                    bottom_margin := m |} W).

Definition store_arguments (args : option (list string)) : state World unit :=
  fun W =>
  (tt, with_self {| dart_entrypoint_arguments := args;
                    window_height := window_height (self W);
                    window_width := window_width (self W);
                    bottom_margin := bottom_margin (self W) |} W).

(** [long strut[12] = {0}] and the three assignments that follow. *)
Definition bottom_strut (window_height window_width bottom_margin : Z)
  : list Z :=
  let strut := replicate 12 0 in
  let strut := <[3%nat := int_add window_height bottom_margin]> strut in
  let strut := <[10%nat := 0]> strut in
  let strut := <[11%nat := window_width]> strut in
  strut.

Definition first_frame_cb (view : nat) : state World unit :=
  window_widget ← gtk_widget_get_toplevel view;
  gtk_widget_show window_widget;;
  D ← get_display;
  if GDK_WINDOWING_X11 D then
    gdk_window ← gtk_widget_get_window window_widget;
    is_x11 ← GDK_IS_X11_WINDOW gdk_window;
    if is_x11 : bool then
      let xid := window_widget in
      app ← get_self;
      let window_height := window_height app in
      let window_width := window_width app in
      let bottom_margin := bottom_margin app in
      state_atom ← XInternAtom "_NET_WM_STATE";
      state_sticky ← XInternAtom "_NET_WM_STATE_STICKY";
      state_above ← XInternAtom "_NET_WM_STATE_ABOVE";
      let states := [state_sticky; state_above] in
      XChangeProperty xid state_atom XA_ATOM 32 (XAtoms states) 2;;
      strut_atom ← XInternAtom "_NET_WM_STRUT_PARTIAL";
      strut_atom_fallback ← XInternAtom "_NET_WM_STRUT";
      let strut := bottom_strut window_height window_width bottom_margin in
      XChangeProperty xid strut_atom XA_CARDINAL 32 (XLongs strut) 12;;
      XChangeProperty xid strut_atom_fallback XA_CARDINAL 32 (XLongs strut) 4;;
      XSetInputFocus_None;;
      XFlush
    else mret tt
  else mret tt.

Definition my_application_activate : state World unit :=
  window ← gtk_application_window_new;
  let window_widget := window in
  gtk_widget_set_app_paintable window_widget true;;
  visual ← gdk_screen_get_rgba_visual;
  (if visual : bool then gtk_widget_set_visual window_widget else mret tt);;
  monitor ← gdk_display_get_primary_monitor;
  let monitor_geometry := monitor_geometry monitor in
  let scale_factor := int_to_double (monitor_scale_factor monitor) in
  let window_height :=
    double_to_int (double_mul (int_to_double 60) scale_factor) in
  let window_width := rect_width monitor_geometry in
  let bottom_margin :=
    double_to_int (double_mul (int_to_double 4) scale_factor) in
  store_geometry window_height window_width bottom_margin;;
  gtk_window_set_default_size window window_width window_height;;
  gtk_widget_set_size_request window_widget window_width window_height;;
  gtk_window_set_decorated window false;;
  gtk_window_stick window;;
  gtk_window_set_keep_above window true;;
  gtk_window_set_type_hint window GDK_WINDOW_TYPE_HINT_DOCK;;
  gtk_widget_realize window_widget;;
  gtk_window_move window 0
    (int_sub (int_sub (rect_height monitor_geometry) window_height)
             bottom_margin);;
  app ← get_self;
  view ← fl_view_new (dart_entrypoint_arguments app);
  fl_view_set_background_color view "rgba(0, 0, 0, 0)";;
  gtk_widget_show view;;
  gtk_container_add window view;;
  g_signal_connect_swapped view "first-frame";;
  fl_register_plugins view;;
  gtk_widget_grab_focus view.

(** [g_application_register]: the outcome is the display's to decide. *)
Definition g_application_register : state World (option string) := fun W =>
  (register_error (display W), with_log (log W ++ [c_g_application_register]) W).

(** [g_application_activate] emits the application's "activate" signal,
    whose class handler [my_application_class_init] set to
    [my_application_activate]. *)
Definition g_application_activate : state World unit :=
  logged c_g_application_activate;;
  my_application_activate.

(** [*arguments + 1]: the vector without its first entry, the program
    name.  The vector the application framework passes always has one. *)
Definition g_strdupv_from_1 (arguments : list string) : option (list string) :=
  Some (tail arguments).

(** Returns the [gboolean] result and the value left in [*exit_status]. *)
Definition my_application_local_command_line (arguments : list string)
  : state World (bool * Z) :=
  store_arguments (g_strdupv_from_1 arguments);;
  error ← g_application_register;
  match error with
  | Some message =>
      logged (c_g_warning ("Failed to register: " ++ message));;
      mret (true, 1)
  | None =>
      g_application_activate;;
      mret (true, 0)
  end.

(** *** Signal emission and the life of the process *)

Definition handlers_of (W : World) (instance : nat) (detailed_signal : string)
  : nat :=
  length (filter (fun c => c = (instance, detailed_signal)) (connections W)).

(** One run of the callback per connected handler. *)
Fixpoint invoke_handlers (n : nat) (view : nat) : state World unit :=
  match n with
  | O => mret tt
  | S n' =>
      logged (c_first_frame_cb view);;
      first_frame_cb view;;
      invoke_handlers n' view
  end.

(** The view emits "first-frame". *)
Definition emit_first_frame (view : nat) : state World unit := fun W =>
  invoke_handlers (handlers_of W view "first-frame") view W.

Inductive event : Type :=
| CommandLine (arguments : list string)
| Activate
| FirstFrame (view : nat).

Definition step (W : World) (e : event) : World :=
  match e with
  | CommandLine arguments => (my_application_local_command_line arguments W).2
  | Activate => (my_application_activate W).2
  | FirstFrame view => (emit_first_frame view W).2
  end.

Definition run (W : World) (events : list event) : World :=
  foldl step W events.

(** The world as [my_application_new] leaves it: a zero-filled
    application object and no widget yet. *)
Definition start (D : Display) : World :=
  {| display := D;
     self := {| dart_entrypoint_arguments := None; window_height := 0;
                window_width := 0; bottom_margin := 0 |};
     widgets := []; connections := []; xprops := ∅; log := [] |}.

(** How often the callback has run for a view. *)
Definition is_first_frame_cb (view : nat) (c : call) : bool :=
  match c with
  | c_first_frame_cb v => Nat.eqb v view
  | _ => false
  end.

Definition callback_runs (W : World) (view : nat) : nat :=
  length (filter (fun c => is_first_frame_cb view c = true) (log W)).

Definition count_nonzero (l : list Z) : nat :=
  length (filter (fun z => z <> 0) l).

(** *** Displays for examples *)

Definition full_hd (s : Z) (b : GdkBackend) : Display :=
  {| primary_monitor :=
       {| monitor_geometry := {| rect_x := 0; rect_y := 0;
                                 rect_width := 1920; rect_height := 1080 |};
          monitor_scale_factor := s |};
     rgba_visual := true; backend := b; GDK_WINDOWING_X11 := true;
     register_error := None |}.


(** The same world on a screen with ([true]) or without ([false]) an RGBA
    visual. *)
Definition with_rgba_visual (b : bool) (W : World) : World :=
  {| display := {| primary_monitor := primary_monitor (display W);
                   rgba_visual := b;
                   backend := backend (display W);
                   GDK_WINDOWING_X11 := GDK_WINDOWING_X11 (display W);
                   register_error := register_error (display W) |};
     self := self W; widgets := widgets W; connections := connections W;
     xprops := xprops W; log := log W |}.

(** *** Closed forms, proved equal to the functions in Part II *)

Definition activate_height (D : Display) : Z :=
  double_to_int (double_mul (int_to_double 60)
    (int_to_double (monitor_scale_factor (primary_monitor D)))).

Definition activate_width (D : Display) : Z :=
  rect_width (monitor_geometry (primary_monitor D)).

Definition activate_margin (D : Display) : Z :=
  double_to_int (double_mul (int_to_double 4)
    (int_to_double (monitor_scale_factor (primary_monitor D)))).

Definition activate_y (D : Display) : Z :=
  int_sub (int_sub (rect_height (monitor_geometry (primary_monitor D)))
                   (activate_height D))
          (activate_margin D).

Definition fresh_window (D : Display) : GtkWidget :=
  {| wclass := GtkApplicationWindow; visible := false; realized := true;
     parent := None; position := Some (0, activate_y D) |}.

Definition fresh_view (window : nat) : GtkWidget :=
  {| wclass := FlView; visible := true; realized := true;
     parent := Some window; position := None |}.

(** The calls of one activation that creates window [window]. *)
Definition activate_calls (D : Display) (arguments : option (list string))
    (window : nat) : list call :=
  let view := S window in
  [c_gtk_application_window_new window;
   c_gtk_widget_set_app_paintable window true] ++
  (if rgba_visual D then [c_gtk_widget_set_visual window] else []) ++
  [c_gtk_window_set_default_size window (activate_width D) (activate_height D);
   c_gtk_widget_set_size_request window (activate_width D) (activate_height D);
   c_gtk_window_set_decorated window false;
   c_gtk_window_stick window;
   c_gtk_window_set_keep_above window true;
   c_gtk_window_set_type_hint window GDK_WINDOW_TYPE_HINT_DOCK;
   c_gtk_widget_realize window;
   c_gtk_window_move window 0 (activate_y D);
   c_fl_view_new view arguments;
   c_fl_view_set_background_color view "rgba(0, 0, 0, 0)";
   c_gtk_widget_show view;
   c_gtk_container_add window view;
   c_g_signal_connect_swapped view "first-frame";
   c_fl_register_plugins view;
   c_gtk_widget_grab_focus view].

Definition activated (W : World) : World :=
  let D := display W in
  let window := length (widgets W) in
  {| display := D;
     self := {| dart_entrypoint_arguments := dart_entrypoint_arguments (self W);
                window_height := activate_height D;
                window_width := activate_width D;
                bottom_margin := activate_margin D |};
     widgets := widgets W ++ [fresh_window D; fresh_view window];
     connections := connections W ++ [(S window, "first-frame"%string)];
     xprops := xprops W;
     log := log W ++
            activate_calls D (dart_entrypoint_arguments (self W)) window |}.

(** Whether [first_frame_cb] enters its X11 block for this toplevel:
    X11 support compiled in, a [GdkWindow] once the toplevel has been
    shown, and that window an X11 window. *)
Definition x11_branch (W : World) (window : nat) : bool :=
  GDK_WINDOWING_X11 (display W) &&
  match widgets W !! window with
  | Some wd => realized (show_widget wd)
  | None => false
  end &&
  match backend (display W) with
  | X11 => true
  | Wayland => false
  end.

Definition sticky_above : XProperty :=
  {| prop_type := XA_ATOM; prop_format := 32;
     prop_data := XAtoms ["_NET_WM_STATE_STICKY"; "_NET_WM_STATE_ABOVE"]%string |}.

Definition strut_partial (app : MyApplication) : XProperty :=
  {| prop_type := XA_CARDINAL; prop_format := 32;
     prop_data := XLongs (bottom_strut (window_height app) (window_width app)
                                       (bottom_margin app)) |}.

Definition strut_legacy (app : MyApplication) : XProperty :=
  {| prop_type := XA_CARDINAL; prop_format := 32;
     prop_data := XLongs (take 4 (bottom_strut (window_height app)
                                    (window_width app) (bottom_margin app))) |}.

Definition x11_calls (app : MyApplication) (window : nat) : list call :=
  [c_XInternAtom "_NET_WM_STATE";
   c_XInternAtom "_NET_WM_STATE_STICKY";
   c_XInternAtom "_NET_WM_STATE_ABOVE";
   c_XChangeProperty window "_NET_WM_STATE" sticky_above;
   c_XInternAtom "_NET_WM_STRUT_PARTIAL";
   c_XInternAtom "_NET_WM_STRUT";
   c_XChangeProperty window "_NET_WM_STRUT_PARTIAL" (strut_partial app);
   c_XChangeProperty window "_NET_WM_STRUT" (strut_legacy app);
   c_XSetInputFocus_None;
   c_XFlush].

Definition x11_props (app : MyApplication) (window : nat)
    (ps : gmap (nat * string) XProperty) : gmap (nat * string) XProperty :=
  <[(window, "_NET_WM_STRUT"%string) := strut_legacy app]>
    (<[(window, "_NET_WM_STRUT_PARTIAL"%string) := strut_partial app]>
       (<[(window, "_NET_WM_STATE"%string) := sticky_above]> ps)).

Definition first_frame_done (view : nat) (W : World) : World :=
  let window := toplevel_of (widgets W) (length (widgets W)) view in
  {| display := display W;
     self := self W;
     widgets := alter show_widget window (widgets W);
     connections := connections W;
     xprops := if x11_branch W window
               then x11_props (self W) window (xprops W)
               else xprops W;
     log := log W ++ c_gtk_widget_show window ::
            (if x11_branch W window then x11_calls (self W) window else []) |}.

(** The calls of one emission of "first-frame" on a view with one
    handler: the callback is entered, shows the toplevel and, on X11,
    issues its requests. *)
Definition emission_calls (W : World) (view : nat) : list call :=
  let window := toplevel_of (widgets W) (length (widgets W)) view in
  c_first_frame_cb view :: c_gtk_widget_show window ::
  (if x11_branch W window then x11_calls (self W) window else []).

(** The world once [my_application_local_command_line] has stored the
    arguments and asked for registration. *)
Definition registered (arguments : list string) (W : World) : World :=
  with_log (log W ++ [c_g_application_register])
    (with_self {| dart_entrypoint_arguments := g_strdupv_from_1 arguments;
                  window_height := window_height (self W);
                  window_width := window_width (self W);
                  bottom_margin := bottom_margin (self W) |} W).

(** *** Vocabulary of the theorems *)

(** A toplevel window that is on screen. *)
Definition shown (W : World) (window : nat) : Prop :=
  exists wd, widgets W !! window = Some wd /\
             wclass wd = GtkApplicationWindow /\ visible wd = true.

(** The positions asked for in a stretch of the log, oldest first. *)
Definition move_requests (l : list call) : list (nat * Z * Z) :=
  omap (fun c => match c with
                 | c_gtk_window_move w x y => Some (w, x, y)
                 | _ => None
                 end) l.

(** The widgets shown in a stretch of the log, oldest first. *)
Definition show_requests (l : list call) : list nat :=
  omap (fun c => match c with
                 | c_gtk_widget_show w => Some w
                 | _ => None
                 end) l.

(** Handlers are connected to widgets that exist, and the callback has
    run for such widgets only. *)
Definition well_formed (W : World) : Prop :=
  (forall v s, (v, s) ∈ connections W -> (v < length (widgets W))%nat) /\
  (forall v, (length (widgets W) <= v)%nat -> callback_runs W v = 0%nat).

(** Two worlds that differ in the log of calls at most. *)
Definition same_toolkit_state (W W' : World) : Prop :=
  display W = display W' /\ self W = self W' /\ widgets W = widgets W' /\
  connections W = connections W' /\ xprops W = xprops W'.

End Runner.

(** ** Further vocabulary for my_application.cc *)

Module RunnerInvariants.
Import Runner.

(** A view that sits directly in a realized, parentless application
    window created just before it and placed at [(0, y)]. *)
Definition docked (ws : list GtkWidget) (view : nat) (y : Z) : Prop :=
  exists window wv ww,
    view = S window /\
    ws !! view = Some wv /\ wclass wv = FlView /\ parent wv = Some window /\
    ws !! window = Some ww /\ wclass ww = GtkApplicationWindow /\
    parent ww = None /\ realized ww = true /\ position ww = Some (0, y).

(** What holds of every world the program can be in: every handler is a
    "first-frame" handler of a docked view whose window sits where the
    display's geometry puts it; the widgets are the windows and views of
    the activations, two for each handler; and once there has been an
    activation, the application object holds the geometry of the
    display. *)
Definition paired (W : World) : Prop :=
  (forall v s, (v, s) ∈ connections W ->
     s = "first-frame"%string /\
     docked (widgets W) v (activate_y (display W))) /\
  length (widgets W) = (2 * length (connections W))%nat /\
  (connections W <> [] ->
   window_height (self W) = activate_height (display W) /\
   window_width (self W) = activate_width (display W) /\
   bottom_margin (self W) = activate_margin (display W)).

End RunnerInvariants.

(** ** my_application_dispose *)

Module Teardown.
Import Runner.

(** The runner's world, and what the GLib heap holds for it. *)
Record Process : Type := {
  world : World;
  (** string vectors handed out by [g_strdupv] and not yet freed *)
  live_strv : nat;
  (** calls of [g_strfreev] on a vector *)
  strfreev_calls : nat;
  (** times the parent class's [dispose] ran *)
  parent_disposals : nat;
}.

Definition launch (D : Display) : Process :=
  {| world := start D; live_strv := 0; strfreev_calls := 0;
     parent_disposals := 0 |}.

(** [my_application_local_command_line], counting the vector that
    [g_strdupv] allocates; a vector stored before stays allocated. *)
Definition local_command_line (arguments : list string) (P : Process)
  : (bool * Z) * Process :=
  let (result, W') := my_application_local_command_line arguments (world P) in
  (result,
   {| world := W'; live_strv := S (live_strv P);
      strfreev_calls := strfreev_calls P;
      parent_disposals := parent_disposals P |}).

(** [g_clear_pointer (&self->dart_entrypoint_arguments, g_strfreev)]: a
    non-null pointer is set to [NULL] and what it pointed to is freed; a
    null pointer is left alone.  Then the parent's [dispose]. *)
Definition my_application_dispose (P : Process) : Process :=
  match dart_entrypoint_arguments (self (world P)) with
  | Some _ =>
      {| world := (store_arguments None (world P)).2;
         live_strv := pred (live_strv P);
         strfreev_calls := S (strfreev_calls P);
         parent_disposals := S (parent_disposals P) |}
  | None =>
      {| world := world P; live_strv := live_strv P;
         strfreev_calls := strfreev_calls P;
         parent_disposals := S (parent_disposals P) |}
  end.

End Teardown.

(** * Part II: theorems *)

(** ** Facts about C integers *)

Module CIntFacts.
Import CInt.

Lemma wrap_id z : int_range z -> wrap z = z.
Proof.
  unfold int_range, wrap, INT_MIN, INT_MAX. intros Hz.
  rewrite Z.mod_small; lia.
Qed.

Lemma wrap_range z : int_range (wrap z).
Proof.
  unfold int_range, wrap, INT_MIN, INT_MAX.
  pose proof (Z.mod_pos_bound (z + 2 ^ 31) (2 ^ 32)). lia.
Qed.

Lemma wrap_wrap_sub a b : wrap (wrap a - b) = wrap (a - b).
Proof.
  unfold wrap.
  replace (((a + 2 ^ 31) mod 2 ^ 32 - 2 ^ 31 - b) + 2 ^ 31)
    with ((a + 2 ^ 31) mod 2 ^ 32 - b) by lia.
  replace (a - b + 2 ^ 31) with ((a + 2 ^ 31) - b) by lia.
  by rewrite Zminus_mod_idemp_l.
Qed.

Lemma double_to_int_of_int (c i : Z) :
  int_range (c * i) ->
  double_to_int (double_mul (int_to_double c) (int_to_double i)) = c * i.
Proof.
  unfold int_range, double_to_int, double_mul, int_to_double. simpl.
  rewrite Z.quot_1_r. intros [Hlo Hhi].
  apply Z.leb_le in Hlo, Hhi. by rewrite Hlo, Hhi.
Qed.

Lemma double_to_int_range d : int_range (double_to_int d).
Proof.
  unfold double_to_int, int_range.
  set (t := Z.quot _ _).
  destruct (Z.leb_spec INT_MIN t), (Z.leb_spec t INT_MAX); simpl;
    unfold INT_MIN, INT_MAX in *; lia.
Qed.

End CIntFacts.

(** ** icon_loader.c *)

Module IconLoaderSpec.
Import IconLoader.

(** Taking a reference and dropping it again leaves the reference counts
    as they were, whatever happened to the heap in between. *)
Lemma unref_after_ref (i : GtkIconInfo) (w w' : world) :
  refs w' = refs (g_object_ref (info_object i) w) ->
  g_object_unref (Some i) w' = Ok tt (set_refs (refs w) w').
Proof.
  intros Hrefs. unfold g_object_unref. rewrite Hrefs. unfold g_object_ref.
  destruct (refs w !! info_object i) as [n|] eqn:Hn; simpl;
    rewrite lookup_insert_eq.
  - destruct (Pos.succ n) eqn:Hs;
      try (rewrite <- Hs, Pos.pred_succ, insert_insert_eq, insert_id by done;
           done).
    by apply Pos.succ_not_1 in Hs.
  - by rewrite delete_insert_eq, delete_id.
Qed.

(** The fresh block [strdup] picks is not in use. *)
Lemma fresh_block_unused (h : gmap block string) : h !! fresh (dom h) = None.
Proof. apply not_elem_of_dom, is_fresh. Qed.

(** What [get_icon_path] returns and what it leaves behind, case by case. *)
Lemma get_icon_path_spec (w : world) (icon_name : option string) (size : Z) :
  get_icon_path icon_name size w =
  match default_theme w with
  | None => Ok None (g_critical w)
  | Some th =>
      match icon_name with
      | None => Ok None (g_critical w)
      | Some name =>
          match theme_lookup th name size GTK_ICON_LOOKUP_FORCE_SIZE with
          | None => Ok None w
          | Some info =>
              match info_filename info with
              | None => Ok None w
              | Some path =>
                  if decide (S (String.length path) <= mem_left w)%nat
                  then Ok (Some (fresh (dom (heap w))))
                          (set_heap (<[fresh (dom (heap w)) := path]> (heap w))
                                    (mem_left w - S (String.length path)) w)
                  else Ok None w
              end
          end
      end
  end.
Proof.
  unfold get_icon_path, mbind, exec_bind, gtk_icon_theme_get_default.
  destruct (default_theme w) as [th|] eqn:Hth; [|done].
  unfold gtk_icon_theme_lookup_icon.
  destruct icon_name as [name|]; [|done].
  destruct (theme_lookup th name size _) as [info|]; [|done].
  unfold gtk_icon_info_get_filename.
  destruct (info_filename info) as [path|] eqn:Hpath.
  - unfold strdup.
    assert (Hmem : mem_left (g_object_ref (info_object info) w) = mem_left w)
      by (unfold g_object_ref; by destruct (refs w !! _)).
    assert (Hheap : heap (g_object_ref (info_object info) w) = heap w)
      by (unfold g_object_ref; by destruct (refs w !! _)).
    rewrite Hmem, Hheap. case_decide.
    + rewrite (unref_after_ref info w) by done.
      unfold mret, exec_ret. f_equal.
      unfold g_object_ref. destruct w; by destruct (_ !! _).
    + rewrite (unref_after_ref info w) by done.
      unfold mret, exec_ret. f_equal.
      unfold g_object_ref. destruct w; by destruct (_ !! _).
  - unfold mret at 1, exec_ret at 1.
    rewrite (unref_after_ref info w) by done.
    unfold mret, exec_ret. f_equal.
    unfold g_object_ref. destruct w; by destruct (_ !! _).
Qed.

(** C5, as stated, fails: the theme reports a match for
    ["builtin-missing"] at 48 pixels, yet [get_icon_path] returns [NULL],
    because the matched icon info holds no file name. *)
Lemma get_icon_path_match_without_file :
  ~ (forall th info,
        default_theme desktop = Some th ->
        theme_lookup th "builtin-missing" 48 GTK_ICON_LOOKUP_FORCE_SIZE
          = Some info ->
        exists b w', get_icon_path (Some "builtin-missing"%string) 48 desktop
                       = Ok (Some b) w').
Proof.
  intros Hclaim.
  destruct (Hclaim hicolor {| info_object := 9; info_filename := None |})
    as (b & w' & Hget); [reflexivity | reflexivity |].
  rewrite get_icon_path_spec in Hget. simpl in Hget. discriminate.
Qed.

(** C5 (amended): [get_icon_path] returns [NULL] when there is no default
    theme (the toolkit has then reported one critical, and nothing else has
    changed); it returns [NULL] and leaves the world untouched when the
    theme has no match for the name forced to [size] pixels, when the match
    holds no file name, and when the copy cannot be allocated; otherwise it
    returns a block that was not in use before and now holds a copy of the
    file name.  In every case the reference taken on the icon info has been
    dropped on return: the reference counts are those of the start. *)
Theorem get_icon_path_cases (w : world) (name : string) (size : Z) :
  (default_theme w = None ->
     get_icon_path (Some name) size w = Ok None (g_critical w)) /\
  (forall th,
     default_theme w = Some th ->
     theme_lookup th name size GTK_ICON_LOOKUP_FORCE_SIZE = None ->
     get_icon_path (Some name) size w = Ok None w) /\
  (forall th info,
     default_theme w = Some th ->
     theme_lookup th name size GTK_ICON_LOOKUP_FORCE_SIZE = Some info ->
     match info_filename info with
     | None => get_icon_path (Some name) size w = Ok None w
     | Some path =>
         if decide (S (String.length path) <= mem_left w)%nat
         then exists b w',
                get_icon_path (Some name) size w = Ok (Some b) w' /\
                heap w !! b = None /\
                heap w' = <[b := path]> (heap w) /\
                refs w' = refs w /\ criticals w' = criticals w
         else get_icon_path (Some name) size w = Ok None w
     end).
Proof.
  repeat split.
  - intros Hth. by rewrite get_icon_path_spec, Hth.
  - intros th Hth Hlookup. by rewrite get_icon_path_spec, Hth, Hlookup.
  - intros th info Hth Hlookup.
    rewrite get_icon_path_spec, Hth, Hlookup.
    destruct (info_filename info) as [path|]; [|done].
    case_decide; [|done].
    eexists _, _. split; [done|].
    split; [apply fresh_block_unused | done].
Qed.

Lemma get_icon_path_cases_witness :
  get_icon_path (Some "folder"%string) 48 headless
    = Ok None (g_critical headless) /\
  exists b w',
    get_icon_path (Some "folder"%string) 48 desktop = Ok (Some b) w' /\
    heap desktop !! b = None /\
    heap w' = <[b := folder_png]> (heap desktop) /\
    refs w' = refs desktop /\ criticals w' = criticals desktop.
Proof.
  split.
  - exact (proj1 (get_icon_path_cases headless "folder" 48) eq_refl).
  - exact (proj2 (proj2 (get_icon_path_cases desktop "folder" 48)) hicolor
             {| info_object := 7; info_filename := Some folder_png |}
             eq_refl eq_refl).
Defined.




(** A call that returns a block has put the path there, in a block that
    was free, and has changed nothing else of the heap or of the theme. *)
Lemma get_icon_path_Some_inv (w w' : world) (icon_name : option string)
    (size : Z) (b : block) :
  get_icon_path icon_name size w = Ok (Some b) w' ->
  exists path,
    heap w !! b = None /\
    heap w' = <[b := path]> (heap w) /\
    default_theme w' = default_theme w.
Proof.
  rewrite get_icon_path_spec.
  destruct (default_theme w) as [th|] eqn:Hth; [|done].
  destruct icon_name as [name|]; [|done].
  destruct (theme_lookup th name size _) as [info|]; [|done].
  destruct (info_filename info) as [path|]; [|done].
  case_decide; [|done].
  intros [= <- <-]. exists path.
  split; [apply fresh_block_unused | split; [reflexivity | by simpl]].
Qed.

(** The path a successful call copies is a function of the theme, the
    name and the size alone. *)
Lemma get_icon_path_Some_path (w w' : world) (icon_name : option string)
    (size : Z) (b : block) :
  get_icon_path icon_name size w = Ok (Some b) w' ->
  exists th name info,
    default_theme w = Some th /\ icon_name = Some name /\
    theme_lookup th name size GTK_ICON_LOOKUP_FORCE_SIZE = Some info /\
    heap w' !! b = info_filename info.
Proof.
  rewrite get_icon_path_spec.
  destruct (default_theme w) as [th|]; [|done].
  destruct icon_name as [name|]; [|done].
  destruct (theme_lookup th name size _) as [info|] eqn:Hlookup; [|done].
  destruct (info_filename info) as [path|] eqn:Hpath; [|done].
  case_decide; [|done].
  intros [= <- <-]. exists th, name, info.
  repeat split; try done. simpl. rewrite Hpath. apply lookup_insert_eq.
Qed.

(** C9: two successive calls with the same name and size that both return
    a path return two different blocks, each holding the same path.
    Releasing either with [free_icon_path] succeeds and leaves the other
    block and its contents in place, after which the other can still be
    released, too. *)
Theorem get_icon_path_twice_independent (w w1 w2 : world)
    (icon_name : option string) (size : Z) (b1 b2 : block) :
  get_icon_path icon_name size w = Ok (Some b1) w1 ->
  get_icon_path icon_name size w1 = Ok (Some b2) w2 ->
  b1 <> b2 /\
  (exists path, heap w2 !! b1 = Some path /\ heap w2 !! b2 = Some path) /\
  (exists w3 w4,
     free_icon_path (Some b1) w2 = Ok tt w3 /\
     heap w3 !! b1 = None /\ heap w3 !! b2 = heap w2 !! b2 /\
     free_icon_path (Some b2) w3 = Ok tt w4) /\
  (exists w3 w4,
     free_icon_path (Some b2) w2 = Ok tt w3 /\
     heap w3 !! b2 = None /\ heap w3 !! b1 = heap w2 !! b1 /\
     free_icon_path (Some b1) w3 = Ok tt w4).
Proof.
  intros Hfirst Hsecond.
  destruct (get_icon_path_Some_inv _ _ _ _ _ Hfirst)
    as (path1 & Hfree1 & Hheap1 & Htheme1).
  destruct (get_icon_path_Some_inv _ _ _ _ _ Hsecond)
    as (path2 & Hfree2 & Hheap2 & _).
  destruct (get_icon_path_Some_path _ _ _ _ _ Hfirst)
    as (th & name & info & Hth & -> & Hlookup & Hp1).
  destruct (get_icon_path_Some_path _ _ _ _ _ Hsecond)
    as (th' & name' & info' & Hth' & [= <-] & Hlookup' & Hp2).
  rewrite Htheme1, Hth in Hth'. injection Hth' as <-.
  rewrite Hlookup in Hlookup'. injection Hlookup' as <-.
  assert (Hne : b1 <> b2).
  { intros ->. rewrite Hheap1, lookup_insert_eq in Hfree2. discriminate. }
  assert (H1 : heap w2 !! b1 = Some path1).
  { rewrite Hheap2, lookup_insert_ne, Hheap1 by done.
    apply lookup_insert_eq. }
  assert (H2 : heap w2 !! b2 = Some path2).
  { rewrite Hheap2. apply lookup_insert_eq. }
  assert (Hsame : path1 = path2).
  { rewrite Hheap1, lookup_insert_eq in Hp1. rewrite H2 in Hp2. congruence. }
  subst path2.
  split; [done|]. split; [by exists path1|].
  unfold free_icon_path, free. split.
  - eexists _, _. rewrite H1. split; [done|]. simpl.
    rewrite lookup_delete_eq, lookup_delete_ne, H2 by done. done.
  - eexists _, _. rewrite H2. split; [done|]. simpl.
    rewrite lookup_delete_eq, lookup_delete_ne, H1 by done. done.
Qed.

Lemma get_icon_path_twice_witness :
  (1 <> 2)%positive /\
  (exists path, heap desktop_2 !! 1%positive = Some path /\
                heap desktop_2 !! 2%positive = Some path) /\
  (exists w3 w4,
     free_icon_path (Some 1%positive) desktop_2 = Ok tt w3 /\
     heap w3 !! 1%positive = None /\
     heap w3 !! 2%positive = heap desktop_2 !! 2%positive /\
     free_icon_path (Some 2%positive) w3 = Ok tt w4) /\
  (exists w3 w4,
     free_icon_path (Some 2%positive) desktop_2 = Ok tt w3 /\
     heap w3 !! 2%positive = None /\
     heap w3 !! 1%positive = heap desktop_2 !! 1%positive /\
     free_icon_path (Some 1%positive) w3 = Ok tt w4).
Proof.
  apply (get_icon_path_twice_independent desktop desktop_1 desktop_2
           (Some "folder"%string) 48 1%positive 2%positive);
    vm_compute; reflexivity.
Defined.

(** C10: [free_icon_path] hands its argument to [free], and for [NULL]
    that does nothing: the call returns and the world is the one it
    started from. *)
Theorem free_icon_path_null (w : world) :
  free_icon_path None w = Ok tt w /\
  (forall p : char_ptr, free_icon_path p w = free p w).
Proof.
  split.
  - unfold free_icon_path, free. reflexivity.
  - intros p. reflexivity.
Qed.

End IconLoaderSpec.

(** ** my_application.cc *)

Module RunnerSpec.
Import CInt CIntFacts Runner.

Lemma alter_fresh {A} (f : A -> A) (l k : list A) :
  alter f (length l) (l ++ k) = l ++ alter f 0%nat k.
Proof. by rewrite <- (Nat.add_0_r (length l)), alter_app_r. Qed.

(** Showing keeps what is realized realized, and a second show changes
    nothing. *)
Lemma realized_show_widget (wd : GtkWidget) :
  realized wd = true -> realized (show_widget wd) = true.
Proof.
  intros Hr. unfold show_widget. cbn [realized]. rewrite Hr.
  by destruct (wclass wd).
Qed.

Lemma show_widget_idem (wd : GtkWidget) :
  show_widget (show_widget wd) = show_widget wd.
Proof. unfold show_widget. cbn. by destruct (wclass wd). Qed.

(** [my_application_activate] in closed form. *)
Ltac run_activate :=
  cbv [my_application_activate activated activate_calls
       mbind state_bind mret state_ret
       gtk_application_window_new fl_view_new new_widget
       gtk_widget_set_app_paintable gdk_screen_get_rgba_visual
       gtk_widget_set_visual gdk_display_get_primary_monitor store_geometry
       gtk_window_set_default_size gtk_widget_set_size_request
       gtk_window_set_decorated gtk_window_stick gtk_window_set_keep_above
       gtk_window_set_type_hint gtk_widget_realize gtk_window_move get_self
       fl_view_set_background_color gtk_widget_show gtk_container_add
       g_signal_connect_swapped fl_register_plugins gtk_widget_grab_focus
       update_widget logged
       with_log with_widgets with_self with_connections
       display self widgets connections xprops log
       dart_entrypoint_arguments].

Lemma my_application_activate_eq (W : World) :
  my_application_activate W = (tt, activated W).
Proof.
  destruct W as [D [args h0 w0 m0] ws cs ps l].
  run_activate.
  destruct (rgba_visual D); run_activate.
  all: rewrite !alter_fresh; cbn [alter list_alter].
  all: rewrite !length_app, Nat.add_1_r; cbn [length].
  all: rewrite <- !app_assoc; cbn [app].
  all: rewrite list_lookup_middle by done.
  all: reflexivity.
Qed.

Ltac run_first_frame :=
  cbv [first_frame_cb first_frame_done mbind state_bind mret state_ret
       gtk_widget_get_toplevel gtk_widget_show get_display
       gtk_widget_get_window GDK_IS_X11_WINDOW get_self
       XInternAtom XChangeProperty XSetInputFocus_None XFlush
       x11_props x11_calls update_widget logged
       with_log with_widgets with_self with_connections with_xprops
       display self widgets connections xprops log].

(** [first_frame_cb] in closed form. *)
Lemma first_frame_cb_eq (view : nat) (W : World) :
  first_frame_cb view W = (tt, first_frame_done view W).
Proof.
  destruct W as [D app ws cs ps l].
  run_first_frame. unfold x11_branch. cbn [display widgets].
  set (window := toplevel_of ws (length ws) view).
  destruct (GDK_WINDOWING_X11 D); [|reflexivity].
  rewrite list_lookup_alter_eq.
  destruct (ws !! window) as [[c v r p xy]|]; [|reflexivity].
  cbn [fmap option_fmap option_map show_widget realized wclass].
  destruct c, r; try reflexivity.
  all: destruct (backend D); [|reflexivity].
  all: cbn [andb]; rewrite <- !app_assoc; reflexivity.
Qed.

(** *** The geometry stored by Activate (C3) *)

(** C3, as stated, fails: at scale factor 35791395, which is at least 1,
    the product 60 * 35791395 = 2147483700 is beyond [INT_MAX]; whatever
    [int] ends up in [window_height], it is not that product. *)
Lemma activate_height_overflows :
  let D := full_hd 35791395 X11 in
  let W' := (my_application_activate (start D)).2 in
  1 <= monitor_scale_factor (primary_monitor D) /\
  ~ int_range (60 * monitor_scale_factor (primary_monitor D)) /\
  window_height (self W') <> 60 * monitor_scale_factor (primary_monitor D).
Proof.
  vm_compute. split; [discriminate|]. split; [|discriminate].
  intros [_ Hhi]. by apply Hhi.
Qed.

(** C3 (amended): for a scale factor [s] with [1 <= s] and
    [60 * s <= INT_MAX] (that is, up to 35791394), Activate stores
    [window_height = 60 * s], [window_width] = the monitor's width and
    [bottom_margin = 4 * s] on the application object; the conversion from
    double to int discards no fraction, the products being integers. *)
Theorem activate_stores_geometry (W : World) :
  let s := monitor_scale_factor (primary_monitor (display W)) in
  let W' := (my_application_activate W).2 in
  1 <= s -> 60 * s <= INT_MAX ->
  window_height (self W') = 60 * s /\
  window_width (self W') =
    rect_width (monitor_geometry (primary_monitor (display W))) /\
  bottom_margin (self W') = 4 * s.
Proof.
  intros s W' Hlo Hhi. subst W'. rewrite my_application_activate_eq.
  cbn [snd activated self window_height window_width bottom_margin].
  unfold activate_height, activate_margin, activate_width. fold s.
  unfold INT_MAX in Hhi.
  rewrite !double_to_int_of_int
    by (unfold int_range, INT_MIN, INT_MAX; lia).
  done.
Qed.

Lemma activate_stores_geometry_witness :
  let W := start (full_hd 2 X11) in
  let W' := (my_application_activate W).2 in
  window_height (self W') = 60 * 2 /\
  window_width (self W') = 1920 /\
  bottom_margin (self W') = 4 * 2.
Proof.
  apply (activate_stores_geometry (start (full_hd 2 X11)));
    vm_compute; discriminate.
Defined.

(** *** Where Activate puts the window (C4) *)

(** C4, as stated, fails: on a monitor 1080 pixels high with scale factor
    34000000 the stored height is 2040000000 and the margin 136000000;
    1080 - 2040000000 - 136000000 is below [INT_MIN], and the [y] handed to
    [gtk_window_move], an [int], is not that number. *)
Lemma activate_position_overflows :
  let D := full_hd 34000000 X11 in
  let W' := (my_application_activate (start D)).2 in
  let H := rect_height (monitor_geometry (primary_monitor D)) in
  window_height (self W') = 2040000000 /\
  bottom_margin (self W') = 136000000 /\
  ~ int_range (H - window_height (self W') - bottom_margin (self W')) /\
  forall wd y,
    widgets W' !! 0%nat = Some wd -> position wd = Some (0, y) ->
    y <> H - window_height (self W') - bottom_margin (self W').
Proof.
  vm_compute. split; [reflexivity|]. split; [reflexivity|]. split.
  - intros [Hlo _]. by apply Hlo.
  - intros wd y [= <-] [= <-]. discriminate.
Qed.

(** C4 (amended): Activate asks for exactly one position of the window it
    creates, [x = 0] and [y] = monitor height - window height - bottom
    margin evaluated in 32-bit [int] arithmetic, the heights and the margin
    being the values just stored; [y] is the exact difference whenever that
    difference is an [int]. *)
Theorem activate_places_window (W : World) :
  let window := length (widgets W) in
  let W' := (my_application_activate W).2 in
  let H := rect_height (monitor_geometry (primary_monitor (display W))) in
  let h := window_height (self W') in
  let m := bottom_margin (self W') in
  exists wd y,
    widgets W' !! window = Some wd /\
    wclass wd = GtkApplicationWindow /\
    position wd = Some (0, y) /\
    y = int_sub (int_sub H h) m /\
    (int_range (H - h - m) -> y = H - h - m) /\
    move_requests (drop (length (log W)) (log W')) = [(window, 0, y)].
Proof.
  intros window W' H h m. subst W' h m.
  rewrite my_application_activate_eq.
  cbn [snd activated self widgets log window_height bottom_margin].
  exists (fresh_window (display W)), (activate_y (display W)).
  split; [by apply list_lookup_middle|].
  split; [reflexivity|]. split; [reflexivity|]. split; [reflexivity|].
  split.
  - intros Hrange. unfold activate_y, int_sub. fold H.
    rewrite wrap_wrap_sub. by apply wrap_id.
  - rewrite drop_app_length. unfold activate_calls.
    destruct (rgba_visual (display W)); reflexivity.
Qed.

Lemma activate_places_window_witness :
  let W := start (full_hd 1 X11) in
  let W' := (my_application_activate W).2 in
  exists wd y,
    widgets W' !! 0%nat = Some wd /\
    wclass wd = GtkApplicationWindow /\
    position wd = Some (0, y) /\
    y = 1080 - 60 - 4.
Proof.
  destruct (activate_places_window (start (full_hd 1 X11)))
    as (wd & y & Hwd & Hclass & Hpos & _ & Hexact & _).
  exists wd, y. split; [exact Hwd|]. split; [exact Hclass|].
  split; [exact Hpos|]. apply Hexact. vm_compute. split; discriminate.
Defined.

(** *** The strut written on the first frame (C1) *)

(** C1, as stated, fails: after Activate on a 1920x1080 X11 display of
    scale 1, the callback writes [_NET_WM_STRUT_PARTIAL] with 64 at index 3
    and 1920 at index 11 and 0 everywhere else, index 10 included: two
    non-zero entries, not three. *)
Lemma strut_has_two_nonzero_entries :
  let W := (my_application_activate (start (full_hd 1 X11))).2 in
  let W' := (first_frame_cb 1 W).2 in
  ~ (exists strut,
       xprops W' !! (0%nat, "_NET_WM_STRUT_PARTIAL"%string)
         = Some {| prop_type := XA_CARDINAL; prop_format := 32;
                   prop_data := XLongs strut |} /\
       count_nonzero strut = 3%nat).
Proof.
  intros W W' (strut & Hprop & Hcount).
  vm_compute in Hprop. injection Hprop as <-.
  vm_compute in Hcount. discriminate.
Qed.

Lemma bottom_strut_eq (h w m : Z) :
  bottom_strut h w m = [0; 0; 0; int_add h m; 0; 0; 0; 0; 0; 0; 0; w].
Proof. reflexivity. Qed.

(** C1 (amended): when the callback takes its X11 block (GDK built with
    X11 support, an X11 display, the toplevel realized), the array written
    as [_NET_WM_STRUT_PARTIAL] on the toplevel has 12 elements; it holds
    [window_height + bottom_margin] (an [int] sum, exact whenever it fits)
    at index 3, 0 at index 10, [window_width] at index 11, and 0 at every
    other index, so at most two entries are non-zero; its first 4 elements
    are written as [_NET_WM_STRUT]. *)
Theorem first_frame_cb_writes_strut (W : World) (view : nat) :
  let window := toplevel_of (widgets W) (length (widgets W)) view in
  let W' := (first_frame_cb view W).2 in
  let h := window_height (self W) in
  let w := window_width (self W) in
  let m := bottom_margin (self W) in
  GDK_WINDOWING_X11 (display W) = true ->
  backend (display W) = X11 ->
  (exists wd, widgets W !! window = Some wd /\ realized wd = true) ->
  exists strut,
    xprops W' !! (window, "_NET_WM_STRUT_PARTIAL"%string)
      = Some {| prop_type := XA_CARDINAL; prop_format := 32;
                prop_data := XLongs strut |} /\
    xprops W' !! (window, "_NET_WM_STRUT"%string)
      = Some {| prop_type := XA_CARDINAL; prop_format := 32;
                prop_data := XLongs (take 4 strut) |} /\
    length strut = 12%nat /\
    strut !! 3%nat = Some (int_add h m) /\
    (int_range (h + m) -> strut !! 3%nat = Some (h + m)) /\
    strut !! 10%nat = Some 0 /\
    strut !! 11%nat = Some w /\
    (forall i z, strut !! i = Some z -> i <> 3%nat -> i <> 11%nat -> z = 0) /\
    (count_nonzero strut <= 2)%nat.
Proof.
  intros window W' h w m Hbuild Hbackend (wd & Hwd & Hrealized). subst W'.
  rewrite first_frame_cb_eq.
  cbn [snd first_frame_done xprops]. fold window.
  assert (Hbranch : x11_branch W window = true).
  { unfold x11_branch.
    by rewrite Hbuild, Hbackend, Hwd, realized_show_widget. }
  rewrite Hbranch. unfold x11_props.
  exists (bottom_strut h w m).
  split.
  { rewrite lookup_insert_ne by (intros [=]). apply lookup_insert_eq. }
  split; [apply lookup_insert_eq|].
  rewrite bottom_strut_eq.
  split; [reflexivity|]. split; [reflexivity|].
  split. { intros Hrange. unfold int_add. by rewrite wrap_id. }
  split; [reflexivity|]. split; [reflexivity|].
  split.
  - intros i z Hi H3 H11.
    do 12 (destruct i as [|i]; [simpl in Hi; congruence|]).
    discriminate.
  - unfold count_nonzero. rewrite !filter_cons.
    repeat case_decide; simpl; lia.
Qed.

Lemma first_frame_cb_writes_strut_witness :
  let W := (my_application_activate (start (full_hd 1 X11))).2 in
  let W' := (first_frame_cb 1 W).2 in
  exists strut,
    xprops W' !! (0%nat, "_NET_WM_STRUT_PARTIAL"%string)
      = Some {| prop_type := XA_CARDINAL; prop_format := 32;
                prop_data := XLongs strut |} /\
    strut !! 3%nat = Some (60 + 4) /\
    strut !! 10%nat = Some 0 /\
    strut !! 11%nat = Some 1920.
Proof.
  destruct (first_frame_cb_writes_strut
              (my_application_activate (start (full_hd 1 X11))).2 1)
    as (strut & Hp & _ & _ & _ & H3 & H10 & H11 & _).
  - reflexivity.
  - reflexivity.
  - eexists. split; reflexivity.
  - exists strut. split; [exact Hp|]. split; [|split; [exact H10|exact H11]].
    apply H3. vm_compute. split; discriminate.
Defined.

(** *** The command-line hook (C7) *)

(** [my_application_local_command_line] in closed form. *)
Lemma my_application_local_command_line_eq (arguments : list string)
    (W : World) :
  my_application_local_command_line arguments W =
  match register_error (display W) with
  | Some message =>
      ((true, 1),
       with_log (log (registered arguments W) ++
                 [c_g_warning ("Failed to register: " ++ message)])
                (registered arguments W))
  | None =>
      ((true, 0),
       (my_application_activate
          (with_log (log (registered arguments W) ++
                     [c_g_application_activate])
                    (registered arguments W))).2)
  end.
Proof.
  unfold my_application_local_command_line, g_application_register,
    g_application_activate, store_arguments, registered, logged.
  unfold mbind, state_bind, mret, state_ret.
  cbn [display with_self with_log].
  destruct (register_error (display W)) as [message|]; [reflexivity|].
  cbn [log with_log with_self]. by destruct (my_application_activate _).
Qed.

(** C7: the hook returns [TRUE]; it stores the arguments that follow the
    program name, then registers.  When registration succeeds, activation
    runs on the world so prepared (the view receives the stored arguments)
    and the exit status is 0.  When registration fails, the exit status
    is 1, the failure is logged, and activation does not run: no widget is
    created, no handler connected, and the log holds the registration and
    the warning only. *)
Theorem local_command_line_exit_status (W : World) (program : string)
    (rest : list string) :
  let result := my_application_local_command_line (program :: rest) W in
  let W' := result.2 in
  result.1.1 = true /\
  dart_entrypoint_arguments (self W') = Some rest /\
  match register_error (display W) with
  | None =>
      result.1.2 = 0 /\
      (exists W0,
         dart_entrypoint_arguments (self W0) = Some rest /\
         widgets W0 = widgets W /\
         log W0 = log W ++ [c_g_application_register;
                            c_g_application_activate] /\
         W' = (my_application_activate W0).2) /\
      length (widgets W') = S (S (length (widgets W))) /\
      c_fl_view_new (S (length (widgets W))) (Some rest) ∈ log W'
  | Some message =>
      result.1.2 = 1 /\
      log W' = log W ++ [c_g_application_register;
                         c_g_warning ("Failed to register: " ++ message)] /\
      widgets W' = widgets W /\
      connections W' = connections W /\
      xprops W' = xprops W
  end.
Proof.
  intros result W'. subst W' result.
  rewrite my_application_local_command_line_eq.
  destruct (register_error (display W)) as [message|] eqn:Hreg.
  - cbn [fst snd]. split; [done|]. split; [done|]. split; [done|].
    cbn [log with_log registered]. rewrite <- app_assoc.
    repeat split; reflexivity.
  - cbn [fst snd]. split; [done|].
    set (W0 := with_log _ _).
    assert (Hargs : dart_entrypoint_arguments (self W0) = Some rest)
      by reflexivity.
    assert (Hwidgets : widgets W0 = widgets W) by reflexivity.
    assert (Hlog : log W0 = log W ++ [c_g_application_register;
                                      c_g_application_activate]).
    { subst W0. cbn [log with_log registered]. by rewrite <- app_assoc. }
    split; [|split; [done|split; [by exists W0|]]];
      rewrite my_application_activate_eq; cbn [snd activated self widgets log
        dart_entrypoint_arguments].
    + exact Hargs.
    + rewrite Hwidgets, Hargs. split.
      * rewrite length_app. cbn [length]. lia.
      * unfold activate_calls. rewrite !elem_of_app. right. right. right.
        rewrite !elem_of_cons. tauto.
Qed.

(** *** The deferred reveal (C6) *)

(** Activation shows no window that was not shown before: the widgets it
    finds are left alone, the window it adds is hidden, and the other
    widget it adds is a view. *)
Lemma shown_activated (W : World) (i : nat) :
  shown (activated W) i -> shown W i.
Proof.
  intros (wd & Hwd & Hclass & Hvisible). cbn [activated widgets] in Hwd.
  destruct (decide (i < length (widgets W))%nat) as [Hlt|Hge].
  - rewrite lookup_app_l in Hwd by done. by exists wd.
  - rewrite lookup_app_r in Hwd by lia.
    destruct (i - length (widgets W))%nat as [|[|k]]; simpl in Hwd.
    + injection Hwd as <-. discriminate.
    + injection Hwd as <-. discriminate.
    + discriminate.
Qed.

(** The view Activate creates sits directly in the window Activate
    creates, which has no parent. *)
Lemma toplevel_of_fresh_view (W : World) :
  toplevel_of (widgets (activated W)) (length (widgets (activated W)))
              (S (length (widgets W)))
  = length (widgets W).
Proof.
  cbn [activated widgets]. rewrite length_app. cbn [length].
  replace (length (widgets W) + 2)%nat with (S (S (length (widgets W))))
    by lia.
  cbn [toplevel_of].
  rewrite lookup_app_r by lia.
  replace (S (length (widgets W)) - length (widgets W))%nat with 1%nat by lia.
  cbn [lookup list_lookup fresh_view parent].
  by rewrite list_lookup_middle.
Qed.

Lemma shown_first_frame_done (view : nat) (W : World) (i : nat) :
  shown W i -> shown (first_frame_done view W) i.
Proof.
  intros (wd & Hwd & Hclass & Hvisible).
  unfold shown. cbn [first_frame_done widgets].
  set (window := toplevel_of (widgets W) (length (widgets W)) view).
  destruct (decide (window = i)) as [->|Hne].
  - exists (show_widget wd).
    rewrite list_lookup_alter_eq, Hwd. by split.
  - exists wd. by rewrite list_lookup_alter_ne.
Qed.

Lemma shown_with_log (l : list call) (W : World) (i : nat) :
  shown (with_log l W) i <-> shown W i.
Proof. reflexivity. Qed.

(** One more handler to run: the callback runs, then the others. *)
Lemma invoke_handlers_S (k view : nat) (W : World) :
  invoke_handlers (S k) view W =
  invoke_handlers k view
    (first_frame_done view (with_log (log W ++ [c_first_frame_cb view]) W)).
Proof.
  cbn [invoke_handlers]. unfold mbind, state_bind, logged.
  by rewrite first_frame_cb_eq.
Qed.

Lemma shown_invoke_handlers (k view : nat) (W : World) (i : nat) :
  shown W i -> shown (invoke_handlers k view W).2 i.
Proof.
  revert W. induction k as [|k IH]; intros W Hshown; [done|].
  rewrite invoke_handlers_S. apply IH, shown_first_frame_done.
  by apply shown_with_log.
Qed.

(** The callback puts the toplevel of its view on screen, if that is a
    window. *)
Lemma first_frame_done_shows (view : nat) (W : World) (wd : GtkWidget) :
  let window := toplevel_of (widgets W) (length (widgets W)) view in
  widgets W !! window = Some wd ->
  wclass wd = GtkApplicationWindow ->
  shown (first_frame_done view W) window.
Proof.
  intros window Hwd Hclass. exists (show_widget wd).
  cbn [first_frame_done widgets]. fold window.
  rewrite list_lookup_alter_eq, Hwd. by split.
Qed.

(** Showing a widget does not move it in the widget tree. *)
Lemma toplevel_of_alter (f : GtkWidget -> GtkWidget) (ws : list GtkWidget)
    (i fuel v : nat) :
  (forall wd, parent (f wd) = parent wd) ->
  toplevel_of (alter f i ws) fuel v = toplevel_of ws fuel v.
Proof.
  intros Hf. revert v. induction fuel as [|fuel IH]; intros v; [done|].
  cbn [toplevel_of]. rewrite list_lookup_alter. case_decide as Hi.
  - subst i. destruct (ws !! v) as [wd|]; cbn; [|done].
    rewrite Hf. destruct (parent wd); [apply IH | done].
  - destruct (ws !! v) as [wd|]; [|done].
    destruct (parent wd); [apply IH | done].
Qed.

Lemma toplevel_first_frame_done (view : nat) (W : World) :
  toplevel_of (widgets (first_frame_done view W))
              (length (widgets (first_frame_done view W))) view
  = toplevel_of (widgets W) (length (widgets W)) view.
Proof.
  cbn [first_frame_done widgets].
  by rewrite length_alter, toplevel_of_alter.
Qed.

Lemma shown_first_frame_done_inv (view : nat) (W : World) (i : nat) :
  shown (first_frame_done view W) i ->
  shown W i \/ toplevel_of (widgets W) (length (widgets W)) view = i.
Proof.
  intros (wd & Hwd & Hclass & Hvisible).
  cbn [first_frame_done widgets] in Hwd.
  destruct (decide (toplevel_of (widgets W) (length (widgets W)) view = i))
    as [Heq|Hne]; [by right|left].
  rewrite list_lookup_alter_ne in Hwd by done. by exists wd.
Qed.

Lemma shown_invoke_handlers_inv (k view : nat) (W : World) (i : nat) :
  shown (invoke_handlers k view W).2 i ->
  shown W i \/
  (k <> 0%nat /\ toplevel_of (widgets W) (length (widgets W)) view = i).
Proof.
  revert W. induction k as [|k IH]; intros W Hshown; [by left|].
  rewrite invoke_handlers_S in Hshown.
  apply IH in Hshown as [Hshown | [_ Htop]].
  - apply shown_first_frame_done_inv in Hshown as [Hshown | Htop];
      [by left | by right].
  - rewrite toplevel_first_frame_done in Htop. by right.
Qed.

(** C6: Activate leaves the window it creates hidden (the one widget it
    shows is the view); the first-frame signal of that view puts the window
    on screen; and the only step of the program that turns a window that
    is not on screen into one that is, is a first-frame emission of a view
    that has the handler connected and sits in that window. *)
Theorem window_revealed_by_first_frame_only (W : World) :
  let window := length (widgets W) in
  let view := S window in
  let W' := (my_application_activate W).2 in
  (exists wd, widgets W' !! window = Some wd /\
              wclass wd = GtkApplicationWindow /\ visible wd = false) /\
  ~ shown W' window /\
  show_requests (drop (length (log W)) (log W')) = [view] /\
  shown (step W' (FirstFrame view)) window /\
  (forall (V : World) (e : event) (i : nat),
     ~ shown V i -> shown (step V e) i ->
     exists v, e = FirstFrame v /\
               handlers_of V v "first-frame" <> 0%nat /\
               toplevel_of (widgets V) (length (widgets V)) v = i).
Proof.
  intros window view W'. subst W'. rewrite my_application_activate_eq.
  cbn [snd].
  assert (Hwindow : widgets (activated W) !! window
                    = Some (fresh_window (display W))).
  { cbn [activated widgets]. by apply list_lookup_middle. }
  split; [by exists (fresh_window (display W))|].
  split.
  { intros (wd & Hwd & _ & Hvisible). rewrite Hwindow in Hwd.
    injection Hwd as <-. discriminate. }
  split.
  { cbn [activated log]. rewrite drop_app_length. unfold activate_calls.
    destruct (rgba_visual (display W)); reflexivity. }
  split.
  { cbn [step]. unfold emit_first_frame.
    assert (Hk : exists k, handlers_of (activated W) view "first-frame" = S k).
    { unfold handlers_of. cbn [activated connections].
      rewrite filter_app, length_app.
      rewrite filter_cons_True by done. cbn [filter length].
      eexists. by rewrite Nat.add_1_r. }
    destruct Hk as [k ->]. rewrite invoke_handlers_S.
    apply shown_invoke_handlers.
    pose proof (toplevel_of_fresh_view W) as Htop.
    pose proof (first_frame_done_shows view
                  (with_log (log (activated W) ++ [c_first_frame_cb view])
                            (activated W))
                  (fresh_window (display W))) as Hshows.
    cbn [widgets with_log] in Hshows. cbv zeta in Hshows.
    unfold view, window in *.
    rewrite Htop in Hshows. by apply Hshows. }
  intros V e i Hhidden Hshown. destruct e as [arguments| |v].
  - exfalso. apply Hhidden. cbn [step] in Hshown.
    rewrite my_application_local_command_line_eq in Hshown.
    destruct (register_error (display V)); cbn [snd] in Hshown.
    + exact Hshown.
    + rewrite my_application_activate_eq in Hshown.
      by apply shown_activated in Hshown.
  - exfalso. apply Hhidden. cbn [step] in Hshown.
    rewrite my_application_activate_eq in Hshown.
    by apply shown_activated in Hshown.
  - exists v. split; [done|]. cbn [step] in Hshown.
    unfold emit_first_frame in Hshown.
    apply shown_invoke_handlers_inv in Hshown as [Hshown | [Hk Htop]];
      [done | by split].
Qed.

(** *** The first-frame handler stays connected (C2) *)

(** C2, as stated, fails: after Activate, two emissions of "first-frame"
    on the view run the callback twice. *)
Lemma first_frame_cb_runs_twice :
  let W := run (start (full_hd 1 X11))
               [Activate; FirstFrame 1; FirstFrame 1] in
  ~ (callback_runs W 1 <= 1)%nat.
Proof. intros W Hle. vm_compute in Hle. lia. Qed.

Lemma run_snoc (W : World) (events : list event) (e : event) :
  run W (events ++ [e]) = step (run W events) e.
Proof. unfold run. by rewrite foldl_app. Qed.

Lemma callback_runs_app (W : World) (l : list call) (v : nat) :
  callback_runs (with_log (log W ++ l) W) v =
  (callback_runs W v
   + length (filter (fun c => is_first_frame_cb v c = true) l))%nat.
Proof.
  unfold callback_runs. cbn [log with_log].
  by rewrite filter_app, length_app.
Qed.

(** One run of the callback, as the emission performs it: what it leaves
    alone and what it counts. *)
Lemma callback_run_frame (view : nat) (W : World) :
  let W' := first_frame_done view
              (with_log (log W ++ [c_first_frame_cb view]) W) in
  display W' = display W /\ self W' = self W /\
  connections W' = connections W /\
  length (widgets W') = length (widgets W) /\
  (forall v, callback_runs W' v =
             (callback_runs W v + if decide (v = view) then 1 else 0)%nat).
Proof.
  intros W'. subst W'.
  split; [done|]. split; [done|]. split; [done|].
  split; [by cbn [first_frame_done widgets with_log]; rewrite length_alter|].
  intros v. unfold callback_runs. cbn [first_frame_done log with_log].
  rewrite !filter_app, !length_app.
  assert (Htail : forall b app window,
            filter (fun c => is_first_frame_cb v c = true)
                   (c_gtk_widget_show window ::
                    (if b : bool then x11_calls app window else [])) = []).
  { intros [] app window; reflexivity. }
  rewrite Htail. cbn [length]. rewrite Nat.add_0_r. f_equal.
  case_decide as Hv.
  - subst v. rewrite filter_cons_True; [done|].
    cbn [is_first_frame_cb]. apply Nat.eqb_refl.
  - rewrite filter_cons_False; [done|].
    cbn [is_first_frame_cb]. intros Heq%Nat.eqb_eq. congruence.
Qed.

Lemma invoke_handlers_frame (k view : nat) (W : World) :
  let W' := (invoke_handlers k view W).2 in
  display W' = display W /\ self W' = self W /\
  connections W' = connections W /\
  length (widgets W') = length (widgets W) /\
  (forall v, callback_runs W' v =
             (callback_runs W v + if decide (v = view) then k else 0)%nat).
Proof.
  revert W. induction k as [|k IH]; intros W W'; subst W'.
  - cbn [invoke_handlers snd mret state_ret].
    repeat split; try done. intros v. case_decide; lia.
  - rewrite invoke_handlers_S.
    destruct (IH (first_frame_done view
                    (with_log (log W ++ [c_first_frame_cb view]) W)))
      as (Hd & Hs & Hc & Hl & Hr).
    destruct (callback_run_frame view W) as (Hd' & Hs' & Hc' & Hl' & Hr').
    split; [congruence|]. split; [congruence|]. split; [congruence|].
    split; [congruence|].
    intros v. rewrite Hr, Hr'. case_decide; lia.
Qed.

Lemma callback_runs_activated (W : World) (v : nat) :
  callback_runs (activated W) v = callback_runs W v.
Proof.
  unfold callback_runs. cbn [activated log].
  rewrite filter_app, length_app.
  assert (Hnone : forall D arguments window,
            filter (fun c => is_first_frame_cb v c = true)
                   (activate_calls D arguments window) = []).
  { intros D arguments window. unfold activate_calls.
    destruct (rgba_visual D); reflexivity. }
  rewrite Hnone. cbn [length]. lia.
Qed.

Lemma well_formed_activated (W : World) :
  well_formed W -> well_formed (activated W).
Proof.
  intros [Hconn Hruns]. split.
  - intros v s. cbn [activated connections widgets].
    rewrite elem_of_app, list_elem_of_singleton, length_app. cbn [length].
    intros [Hin | [= -> ->]]; [apply Hconn in Hin|]; lia.
  - intros v. cbn [activated widgets]. rewrite length_app. cbn [length].
    intros Hv. rewrite callback_runs_activated. apply Hruns. lia.
Qed.

Lemma well_formed_with_log (W : World) (c : call) :
  (forall v, is_first_frame_cb v c = false) ->
  well_formed W -> well_formed (with_log (log W ++ [c]) W).
Proof.
  intros Hc [Hconn Hruns]. split; [exact Hconn|].
  intros v Hv. rewrite callback_runs_app. cbn [widgets with_log] in Hv.
  rewrite filter_cons_False by (rewrite Hc; discriminate).
  cbn. rewrite Hruns by done. done.
Qed.

Lemma well_formed_self (W : World) (app : MyApplication) :
  well_formed W -> well_formed (with_self app W).
Proof. intros [Hconn Hruns]. by split. Qed.

Lemma handlers_of_elem (W : World) (v : nat) (s : string) :
  handlers_of W v s <> 0%nat -> (v, s) ∈ connections W.
Proof.
  unfold handlers_of. intros Hk.
  destruct (filter _ _) as [|c l] eqn:Hf; [done|].
  assert (Hin : c ∈ filter (fun c => c = (v, s)) (connections W))
    by (rewrite Hf; left).
  apply list_elem_of_filter in Hin as [-> Hin]. exact Hin.
Qed.

Lemma well_formed_step (W : World) (e : event) :
  well_formed W -> well_formed (step W e).
Proof.
  intros Hwf. destruct e as [arguments| |view]; cbn [step].
  - rewrite my_application_local_command_line_eq.
    assert (Hreg : well_formed (registered arguments W)).
    { unfold registered.
      apply (well_formed_with_log (with_self _ W)); [done|].
      by apply well_formed_self. }
    destruct (register_error (display W)); cbn [snd].
    + by apply well_formed_with_log.
    + rewrite my_application_activate_eq. cbn [snd].
      apply well_formed_activated. by apply well_formed_with_log.
  - rewrite my_application_activate_eq. by apply well_formed_activated.
  - unfold emit_first_frame.
    destruct (invoke_handlers_frame (handlers_of W view "first-frame") view W)
      as (_ & _ & Hc & Hl & Hr).
    destruct Hwf as [Hconn Hruns]. split.
    + intros v s. rewrite Hc, Hl. apply Hconn.
    + intros v. rewrite Hl, Hr. intros Hv. rewrite Hruns by done.
      case_decide as Heq; [|done]. subst v.
      destruct (handlers_of W view "first-frame") eqn:Hk; [done|].
      assert (Hin : (view, "first-frame"%string) ∈ connections W)
        by (apply handlers_of_elem; lia).
      apply Hconn in Hin. lia.
Qed.

Lemma well_formed_run (W : World) (events : list event) :
  well_formed W -> well_formed (run W events).
Proof.
  revert W. induction events as [|e events IH]; intros W Hwf; [done|].
  apply IH. by apply well_formed_step.
Qed.

Lemma well_formed_start (D : Display) : well_formed (start D).
Proof.
  split.
  - intros v s Hin. cbn in Hin. by apply elem_of_nil in Hin.
  - done.
Qed.

Lemma alter_show_widget_idem (ws : list GtkWidget) (i : nat) :
  alter show_widget i (alter show_widget i ws) = alter show_widget i ws.
Proof.
  apply list_eq. intros j. rewrite !list_lookup_alter.
  repeat case_decide; try done.
  destruct (ws !! i); cbn; [|done]. by rewrite show_widget_idem.
Qed.

Lemma x11_props_idem (app : MyApplication) (window : nat)
    (ps : gmap (nat * string) XProperty) :
  x11_props app window (x11_props app window ps) = x11_props app window ps.
Proof.
  unfold x11_props. apply map_eq. intros k. rewrite !lookup_insert.
  repeat case_decide; done.
Qed.

Lemma x11_branch_first_frame_done (view : nat) (W : World) (i : nat) :
  x11_branch (first_frame_done view W) i = x11_branch W i.
Proof.
  unfold x11_branch. cbn [first_frame_done display widgets].
  rewrite list_lookup_alter. case_decide; [subst|done].
  destruct (widgets W !! _); cbn [fmap option_fmap option_map]; [|done].
  by rewrite show_widget_idem.
Qed.

(** What the callback does to the toolkit state depends on the toolkit
    state alone. *)
Lemma first_frame_done_congr (view : nat) (W W' : World) :
  same_toolkit_state W W' ->
  same_toolkit_state (first_frame_done view W) (first_frame_done view W').
Proof.
  intros (Hd & Hs & Hw & Hc & Hx).
  unfold same_toolkit_state, first_frame_done, x11_branch.
  cbn [display self widgets connections xprops].
  rewrite Hd, Hs, Hw, Hc, Hx. done.
Qed.

(** A second run of the callback changes nothing but the log. *)
Lemma first_frame_done_stable (view : nat) (W : World) :
  same_toolkit_state (first_frame_done view (first_frame_done view W))
                     (first_frame_done view W).
Proof.
  pose proof (toplevel_first_frame_done view W) as Htop.
  unfold same_toolkit_state.
  split; [done|]. split; [done|]. split; [|split; [done|]].
  - change (widgets (first_frame_done view (first_frame_done view W)))
      with (alter show_widget
              (toplevel_of (widgets (first_frame_done view W))
                 (length (widgets (first_frame_done view W))) view)
              (widgets (first_frame_done view W))).
    rewrite Htop. cbn [first_frame_done widgets].
    apply alter_show_widget_idem.
  - change (xprops (first_frame_done view (first_frame_done view W)))
      with (let window :=
              toplevel_of (widgets (first_frame_done view W))
                (length (widgets (first_frame_done view W))) view in
            if x11_branch (first_frame_done view W) window
            then x11_props (self W) window
                   (xprops (first_frame_done view W))
            else xprops (first_frame_done view W)).
    cbv zeta. rewrite Htop, x11_branch_first_frame_done.
    cbn [first_frame_done xprops].
    destruct (x11_branch W _); [apply x11_props_idem | done].
Qed.

Lemma same_toolkit_state_with_log (l : list call) (W : World) :
  same_toolkit_state (with_log l W) W.
Proof. by repeat split. Qed.

Lemma same_toolkit_state_trans (W1 W2 W3 : World) :
  same_toolkit_state W1 W2 -> same_toolkit_state W2 W3 ->
  same_toolkit_state W1 W3.
Proof.
  intros (? & ? & ? & ? & ?) (? & ? & ? & ? & ?).
  repeat split; congruence.
Qed.

(** No step changes the display. *)
Lemma display_step (W : World) (e : event) : display (step W e) = display W.
Proof.
  destruct e as [arguments| |view]; cbn [step].
  - rewrite my_application_local_command_line_eq.
    destruct (register_error (display W)); cbn [snd]; [done|].
    by rewrite my_application_activate_eq.
  - by rewrite my_application_activate_eq.
  - unfold emit_first_frame.
    by destruct (invoke_handlers_frame
                   (handlers_of W view "first-frame") view W) as (-> & _).
Qed.

Lemma display_run (W : World) (events : list event) :
  display (run W events) = display W.
Proof.
  revert W. induction events as [|e events IH]; intros W; [done|].
  cbn [run foldl]. fold (run (step W e) events).
  by rewrite IH, display_step.
Qed.

(** With one handler connected, an emission is one logged run of the
    callback. *)
Lemma emit_first_frame_once (view : nat) (W : World) :
  handlers_of W view "first-frame" = 1%nat ->
  step W (FirstFrame view)
  = first_frame_done view (with_log (log W ++ [c_first_frame_cb view]) W).
Proof.
  intros Hone. cbn [step]. unfold emit_first_frame.
  by rewrite Hone, invoke_handlers_S.
Qed.

(** The view of a fresh activation has exactly the handler that the
    activation connected. *)
Lemma handlers_of_fresh_view (W : World) :
  well_formed W ->
  handlers_of (activated W) (S (length (widgets W))) "first-frame" = 1%nat.
Proof.
  intros [Hconn _].
  assert (Hnone : handlers_of W (S (length (widgets W))) "first-frame"
                  = 0%nat).
  { destruct (handlers_of W _ _) eqn:Hk; [done|].
    assert (Hin : (S (length (widgets W)), "first-frame"%string)
                  ∈ connections W) by (apply handlers_of_elem; lia).
    apply Hconn in Hin. lia. }
  unfold handlers_of in *. cbn [activated connections].
  rewrite filter_app, length_app, filter_cons_True by done.
  cbn [filter length]. rewrite Hnone. done.
Qed.

(** The calls of an emission depend on the toolkit state alone, and a run
    of the callback leaves them as they are. *)
Lemma emission_calls_congr (W W' : World) (view : nat) :
  same_toolkit_state W W' -> emission_calls W view = emission_calls W' view.
Proof.
  intros (Hd & Hs & Hw & _ & _). unfold emission_calls, x11_branch.
  by rewrite Hd, Hs, Hw.
Qed.

Lemma emission_calls_first_frame_done (W : World) (view : nat) :
  emission_calls (first_frame_done view W) view = emission_calls W view.
Proof.
  unfold emission_calls.
  by rewrite toplevel_first_frame_done, x11_branch_first_frame_done.
Qed.

Lemma log_emit_first_frame_once (view : nat) (W : World) :
  log (first_frame_done view (with_log (log W ++ [c_first_frame_cb view]) W))
  = log W ++ emission_calls W view.
Proof.
  cbn [first_frame_done log with_log widgets self].
  by rewrite <- app_assoc.
Qed.

(** After an activation of a well-formed world: [n] emissions on the new
    view. *)
Lemma emissions_after_activation (W : World) (n : nat) :
  well_formed W ->
  let view := S (length (widgets W)) in
  let Wn := run (activated W) (replicate n (FirstFrame view)) in
  connections Wn = connections (activated W) /\
  callback_runs Wn view = n /\
  log Wn = log (activated W) ++
           mjoin (replicate n (emission_calls (activated W) view)) /\
  ((1 <= n)%nat ->
   same_toolkit_state Wn (step (activated W) (FirstFrame view))).
Proof.
  intros Hwf view.
  assert (Hfresh : callback_runs (activated W) view = 0%nat).
  { rewrite callback_runs_activated. destruct Hwf as [_ Hruns].
    apply Hruns. unfold view. lia. }
  pose proof (handlers_of_fresh_view W Hwf) as Hone. fold view in Hone.
  induction n as [|n IH]; intros Wn; subst Wn.
  - split; [done|]. split; [done|].
    split; [by cbn; rewrite app_nil_r | lia].
  - rewrite replicate_S_end, run_snoc.
    set (Wn := run (activated W) (replicate n (FirstFrame view))) in *.
    destruct IH as (Hconn & Hruns & Hlog & Hsame).
    assert (Hone_n : handlers_of Wn view "first-frame" = 1%nat).
    { unfold handlers_of in *. by rewrite Hconn. }
    rewrite (emit_first_frame_once view Wn Hone_n).
    destruct (callback_run_frame view Wn) as (_ & _ & Hc & _ & Hr).
    split; [congruence|]. split.
    { rewrite Hr, Hruns, decide_True by done. lia. }
    split.
    { rewrite log_emit_first_frame_once, Hlog, <- app_assoc. f_equal.
      rewrite replicate_S_end, join_app. cbn [mjoin list_join].
      rewrite app_nil_r. f_equal.
      destruct n as [|n]; [done|].
      rewrite (emission_calls_congr Wn _ view (Hsame ltac:(lia))).
      rewrite (emit_first_frame_once view (activated W) Hone).
      by rewrite emission_calls_first_frame_done. }
    intros _. rewrite (emit_first_frame_once view (activated W) Hone).
    destruct n as [|n].
    + apply first_frame_done_congr.
      by repeat split.
    + eapply same_toolkit_state_trans.
      * apply first_frame_done_congr.
        eapply same_toolkit_state_trans;
          [apply same_toolkit_state_with_log|].
        rewrite (emit_first_frame_once view (activated W) Hone) in Hsame.
        apply Hsame. lia.
      * apply first_frame_done_stable.
Qed.

(** The window of a fresh activation takes the X11 block exactly on an
    X11 display of a GDK built with X11 support: Activate has realized
    it. *)
Lemma x11_branch_activated (W : World) :
  x11_branch (activated W) (length (widgets W))
  = GDK_WINDOWING_X11 (display W) &&
    match backend (display W) with X11 => true | Wayland => false end.
Proof.
  unfold x11_branch. cbn [activated display widgets].
  rewrite list_lookup_middle by done.
  cbn [fresh_window show_widget realized wclass].
  by rewrite andb_true_r.
Qed.

(** The first run of the callback after an activation puts the new
    window on screen. *)
Lemma shown_first_emission (W : World) (l : list call) :
  shown (first_frame_done (S (length (widgets W)))
           (with_log l (activated W)))
        (length (widgets W)).
Proof.
  pose proof (toplevel_of_fresh_view W) as Htop.
  pose proof (first_frame_done_shows (S (length (widgets W)))
                (with_log l (activated W))
                (fresh_window (display W))) as Hshows.
  cbn [widgets with_log] in Hshows. cbv zeta in Hshows.
  rewrite Htop in Hshows. apply Hshows; [|done].
  cbn [activated widgets]. by apply list_lookup_middle.
Qed.

(** C2 (amended): the handler Activate connects stays connected: it is
    never disconnected, and the callback runs once for every emission of
    "first-frame" on the view, [n] times for [n] emissions.  Every run
    issues the same requests again: the log grows by [n] copies of the
    entry of the callback, the show request for the window and, on X11,
    the requests of the X11 block.  What the repeated runs do is
    idempotent: from the first emission on, the window is on screen, the
    window properties are those the first run wrote, and the widgets, the
    application object and the connections stay as the first run left
    them. *)
Theorem first_frame_cb_runs_on_every_emission (D : Display)
    (events : list event) (n : nat) :
  let W := run (start D) events in
  let window := length (widgets W) in
  let view := S window in
  let W1 := step W Activate in
  let Wn := run W1 (replicate n (FirstFrame view)) in
  let on_x11 :=
    GDK_WINDOWING_X11 D &&
    match backend D with X11 => true | Wayland => false end in
  let requests :=
    c_first_frame_cb view :: c_gtk_widget_show window ::
    (if on_x11 then x11_calls (self W1) window else []) in
  handlers_of Wn view "first-frame" = 1%nat /\
  callback_runs Wn view = n /\
  log Wn = log W1 ++ mjoin (replicate n requests) /\
  ((1 <= n)%nat ->
   shown Wn window /\
   xprops Wn = (if on_x11 then x11_props (self W1) window (xprops W1)
                else xprops W1) /\
   same_toolkit_state Wn (step W1 (FirstFrame view))).
Proof.
  intros W window view W1 Wn on_x11 requests.
  subst requests Wn W1 view window. cbn [step].
  rewrite my_application_activate_eq. cbn [snd].
  assert (Hwf : well_formed W) by apply well_formed_run, well_formed_start.
  assert (HD : display W = D) by apply display_run.
  pose proof (handlers_of_fresh_view W Hwf) as Hone.
  pose proof (x11_branch_activated W) as Hbranch.
  rewrite HD in Hbranch. fold on_x11 in Hbranch.
  assert (Hcalls :
            emission_calls (activated W) (S (length (widgets W))) =
            c_first_frame_cb (S (length (widgets W))) ::
            c_gtk_widget_show (length (widgets W)) ::
            (if on_x11
             then x11_calls (self (activated W)) (length (widgets W))
             else [])).
  { unfold emission_calls. by rewrite toplevel_of_fresh_view, Hbranch. }
  destruct (emissions_after_activation W n Hwf)
    as (Hconn & Hruns & Hlog & Hsame).
  split; [unfold handlers_of in *; by rewrite Hconn|].
  split; [exact Hruns|].
  split; [by rewrite Hlog, Hcalls|].
  intros Hn. specialize (Hsame Hn). split; [|split; [|exact Hsame]].
  - destruct Hsame as (_ & _ & Hw & _ & _).
    rewrite (emit_first_frame_once _ (activated W) Hone) in Hw.
    destruct (shown_first_emission W
                (log (activated W)
                 ++ [c_first_frame_cb (S (length (widgets W)))]))
      as (wd & Hwd & Hclass & Hvisible).
    exists wd. by rewrite Hw.
  - destruct Hsame as (_ & _ & _ & _ & Hx).
    rewrite Hx, (emit_first_frame_once _ (activated W) Hone).
    change (xprops (first_frame_done ?v (with_log ?l ?V)))
      with (let window := toplevel_of (widgets V) (length (widgets V)) v in
            if x11_branch V window
            then x11_props (self V) window (xprops V) else xprops V).
    cbv zeta. by rewrite toplevel_of_fresh_view, Hbranch.
Qed.

Lemma first_frame_cb_runs_on_every_emission_witness :
  let W := run (start (full_hd 1 X11)) [] in
  let window := length (widgets W) in
  let view := S window in
  let W1 := step W Activate in
  let W3 := run W1 (replicate 3 (FirstFrame view)) in
  shown W3 window /\ same_toolkit_state W3 (step W1 (FirstFrame view)).
Proof.
  intros W window view W1 W3.
  destruct (first_frame_cb_runs_on_every_emission (full_hd 1 X11) [] 3)
    as (_ & _ & _ & Hfrom_first).
  destruct Hfrom_first as (Hshown & _ & Hsame); [lia|].
  split; [exact Hshown | exact Hsame].
Defined.

End RunnerSpec.

(** * Part III: further properties of the code *)

(** ** icon_loader.c: ownership and accounting *)

Module IconLoaderExtra.
Import IconLoader IconLoaderSpec.

(** X1: a path returned by [get_icon_path] and released with
    [free_icon_path] leaves the world exactly as it was before the lookup:
    the heap, the memory still available, the reference counts. *)
Theorem get_icon_path_free_round_trip (w w' : world)
    (icon_name : option string) (size : Z) (b : block) :
  get_icon_path icon_name size w = Ok (Some b) w' ->
  free_icon_path (Some b) w' = Ok tt w.
Proof.
  rewrite get_icon_path_spec.
  destruct (default_theme w) as [th|] eqn:Hth; [|done].
  destruct icon_name as [name|]; [|done].
  destruct (theme_lookup th name size _) as [info|]; [|done].
  destruct (info_filename info) as [path|]; [|done].
  case_decide as Hmem; [|done].
  intros [= <- <-]. unfold free_icon_path, free.
  cbn [heap set_heap]. rewrite lookup_insert_eq. f_equal.
  pose proof (fresh_block_unused (heap w)) as Hfresh.
  destruct w as [t h m r c]. unfold set_heap. cbn in *. f_equal.
  - by rewrite delete_insert_eq, delete_id.
  - lia.
Qed.

Lemma get_icon_path_free_round_trip_witness :
  free_icon_path (Some 1%positive) desktop_1 = Ok tt desktop.
Proof.
  apply (get_icon_path_free_round_trip desktop desktop_1
           (Some "folder"%string) 48 1%positive).
  vm_compute. reflexivity.
Defined.

(** X2: [free_icon_path] has no guard of its own: releasing the same
    result a second time is a double free. *)
Theorem free_icon_path_twice_crashes (w w' w'' : world)
    (icon_name : option string) (size : Z) (b : block) :
  get_icon_path icon_name size w = Ok (Some b) w' ->
  free_icon_path (Some b) w' = Ok tt w'' ->
  free_icon_path (Some b) w'' = Crash.
Proof.
  intros Hget Hfree.
  rewrite (get_icon_path_free_round_trip _ _ _ _ _ Hget) in Hfree.
  injection Hfree as <-.
  destruct (get_icon_path_Some_inv _ _ _ _ _ Hget) as (path & Hunused & _).
  unfold free_icon_path, free. by rewrite Hunused.
Qed.

Lemma free_icon_path_twice_crashes_witness :
  free_icon_path (Some 1%positive) desktop = Crash.
Proof.
  apply (free_icon_path_twice_crashes desktop desktop_1 desktop
           (Some "folder"%string) 48 1%positive);
    vm_compute; reflexivity.
Defined.

(** X3: whatever the name pointer (null included), the size and the
    state of the heap, [get_icon_path] returns, keeps no reference on an
    icon info, leaves every block that was allocated as it was, and takes
    from the allocator exactly the bytes of the copy it returns: the
    length of the path plus one for a result, nothing for [NULL]. *)
Theorem get_icon_path_frame (w : world) (icon_name : option string)
    (size : Z) :
  exists r w',
    get_icon_path icon_name size w = Ok r w' /\
    refs w' = refs w /\
    default_theme w' = default_theme w /\
    (forall b s, heap w !! b = Some s -> heap w' !! b = Some s) /\
    match r with
    | None => heap w' = heap w /\ mem_left w' = mem_left w
    | Some b =>
        exists path,
          heap w !! b = None /\
          heap w' = <[b := path]> (heap w) /\
          (mem_left w' + S (String.length path) = mem_left w)%nat
    end.
Proof.
  rewrite get_icon_path_spec.
  destruct (default_theme w) as [th|] eqn:Hth;
    [|by eexists _, _; repeat split].
  destruct icon_name as [name|];
    [|by eexists _, _; repeat split].
  destruct (theme_lookup th name size _) as [info|];
    [|by eexists _, _; repeat split].
  destruct (info_filename info) as [path|];
    [|by eexists _, _; repeat split].
  case_decide as Hmem; [|by eexists _, _; repeat split].
  pose proof (fresh_block_unused (heap w)) as Hfresh.
  eexists _, _. split; [done|]. split; [done|]. split; [done|]. split.
  - intros b s Hb. cbn [heap set_heap].
    rewrite lookup_insert_ne; [done|]. intros <-. congruence.
  - exists path. split; [done|]. split; [done|]. cbn [mem_left set_heap]. lia.
Qed.

End IconLoaderExtra.

(** ** my_application.cc: the callback and Activate, call by call *)

Module RunnerExtra.
Import CInt CIntFacts Runner RunnerSpec RunnerInvariants.

(** X4: off X11 the callback does nothing but show the window.  When GDK
    has no X11 support, or the display is not an X11 display, the toplevel
    of the view is shown and that is all the callback does to the toolkit:
    no Xlib request follows, no property is written, the application object
    and the connections stay as they were. *)
Theorem first_frame_cb_without_x11 (W : World) (view : nat) :
  let window := toplevel_of (widgets W) (length (widgets W)) view in
  let W' := (first_frame_cb view W).2 in
  GDK_WINDOWING_X11 (display W) = false \/ backend (display W) = Wayland ->
  log W' = log W ++ [c_gtk_widget_show window] /\
  widgets W' !! window = show_widget <$> widgets W !! window /\
  xprops W' = xprops W /\
  self W' = self W /\
  connections W' = connections W.
Proof.
  intros window W' Hoff. subst W'. rewrite first_frame_cb_eq.
  cbn [snd first_frame_done log widgets xprops self connections].
  fold window.
  assert (Hbranch : x11_branch W window = false).
  { unfold x11_branch. destruct Hoff as [-> | ->]; [done|].
    by rewrite andb_false_r. }
  by rewrite Hbranch, list_lookup_alter_eq.
Qed.

Lemma first_frame_cb_without_x11_witness :
  let W := (my_application_activate (start (full_hd 1 Wayland))).2 in
  let W' := (first_frame_cb 1 W).2 in
  log W' = log W ++ [c_gtk_widget_show 0] /\
  widgets W' !! 0%nat = show_widget <$> widgets W !! 0%nat /\
  xprops W' = xprops W /\
  self W' = self W /\
  connections W' = connections W.
Proof.
  apply (first_frame_cb_without_x11
           (my_application_activate (start (full_hd 1 Wayland))).2 1).
  right. reflexivity.
Defined.

(** X5: on X11 the callback shows the toplevel and then talks to the X
    server, in this order: it interns [_NET_WM_STATE],
    [_NET_WM_STATE_STICKY] and [_NET_WM_STATE_ABOVE] and replaces
    [_NET_WM_STATE] of the window by the two state atoms; it interns
    [_NET_WM_STRUT_PARTIAL] and [_NET_WM_STRUT] and replaces first the one,
    then the other; it sets the input focus to [None]; it flushes.
    Properties of other X windows are not touched. *)
Theorem first_frame_cb_x11_requests (W : World) (view : nat) :
  let window := toplevel_of (widgets W) (length (widgets W)) view in
  let W' := (first_frame_cb view W).2 in
  GDK_WINDOWING_X11 (display W) = true ->
  backend (display W) = X11 ->
  (exists wd, widgets W !! window = Some wd /\ realized wd = true) ->
  drop (length (log W)) (log W') =
    [c_gtk_widget_show window;
     c_XInternAtom "_NET_WM_STATE";
     c_XInternAtom "_NET_WM_STATE_STICKY";
     c_XInternAtom "_NET_WM_STATE_ABOVE";
     c_XChangeProperty window "_NET_WM_STATE"
       {| prop_type := XA_ATOM; prop_format := 32;
          prop_data := XAtoms ["_NET_WM_STATE_STICKY";
                               "_NET_WM_STATE_ABOVE"]%string |};
     c_XInternAtom "_NET_WM_STRUT_PARTIAL";
     c_XInternAtom "_NET_WM_STRUT";
     c_XChangeProperty window "_NET_WM_STRUT_PARTIAL" (strut_partial (self W));
     c_XChangeProperty window "_NET_WM_STRUT" (strut_legacy (self W));
     c_XSetInputFocus_None;
     c_XFlush] /\
  xprops W' !! (window, "_NET_WM_STATE"%string)
    = Some {| prop_type := XA_ATOM; prop_format := 32;
              prop_data := XAtoms ["_NET_WM_STATE_STICKY";
                                   "_NET_WM_STATE_ABOVE"]%string |} /\
  (forall xid property, xid <> window ->
     xprops W' !! (xid, property) = xprops W !! (xid, property)).
Proof.
  intros window W' Hbuild Hbackend (wd & Hwd & Hrealized). subst W'.
  rewrite first_frame_cb_eq.
  cbn [snd first_frame_done log xprops]. fold window.
  assert (Hbranch : x11_branch W window = true).
  { unfold x11_branch.
    by rewrite Hbuild, Hbackend, Hwd, realized_show_widget. }
  rewrite Hbranch, drop_app_length. split; [reflexivity|].
  unfold x11_props. split.
  - rewrite !lookup_insert_ne by (intros [=]). apply lookup_insert_eq.
  - intros xid property Hne.
    rewrite !lookup_insert_ne by (intros [=]; congruence). done.
Qed.

Lemma first_frame_cb_x11_requests_witness :
  let W := (my_application_activate (start (full_hd 1 X11))).2 in
  let W' := (first_frame_cb 1 W).2 in
  xprops W' !! (0%nat, "_NET_WM_STATE"%string)
    = Some {| prop_type := XA_ATOM; prop_format := 32;
              prop_data := XAtoms ["_NET_WM_STATE_STICKY";
                                   "_NET_WM_STATE_ABOVE"]%string |}.
Proof.
  apply (first_frame_cb_x11_requests
           (my_application_activate (start (full_hd 1 X11))).2 1).
  - reflexivity.
  - reflexivity.
  - eexists. split; reflexivity.
Defined.


(** X7: Activate adds and never disturbs.  It appends one window
    (realized, hidden, without a parent) and one view (visible, child of
    that window) to the widgets and one "first-frame" handler of that view
    to the connections; the widgets, handlers, window properties and log
    entries that were there stay as they were, and so do the stored
    entry-point arguments. *)
Theorem activate_adds_window_and_view (W : World) :
  let window := length (widgets W) in
  let W' := (my_application_activate W).2 in
  (exists ww wv,
     widgets W' = widgets W ++ [ww; wv] /\
     wclass ww = GtkApplicationWindow /\ realized ww = true /\
     visible ww = false /\ parent ww = None /\
     wclass wv = FlView /\ visible wv = true /\ parent wv = Some window) /\
  (forall i wd, widgets W !! i = Some wd -> widgets W' !! i = Some wd) /\
  connections W' = connections W ++ [(S window, "first-frame"%string)] /\
  xprops W' = xprops W /\
  display W' = display W /\
  dart_entrypoint_arguments (self W') = dart_entrypoint_arguments (self W) /\
  take (length (log W)) (log W') = log W.
Proof.
  intros window W'. subst W'. rewrite my_application_activate_eq.
  cbn [snd activated widgets connections xprops display self log
       dart_entrypoint_arguments].
  split; [by exists (fresh_window (display W)), (fresh_view window)|].
  split; [intros i wd Hi; by apply lookup_app_l_Some|].
  split; [done|]. split; [done|]. split; [done|]. split; [done|].
  by rewrite take_app_length.
Qed.

Lemma with_rgba_visual_id (W : World) :
  with_rgba_visual (rgba_visual (display W)) W = W.
Proof. by destruct W as [[mon rgba b x11 err] app ws cs ps l]. Qed.

(** X14: a screen without an alpha-capable visual is tolerated.  Run on
    a screen with an RGBA visual and on the same screen without one,
    Activate leaves the same widgets, the same connections, the same
    application object and the same window properties; its calls differ in
    one request only, the [gtk_widget_set_visual] for the window, made
    right after [gtk_widget_set_app_paintable] and before the size
    requests when there is such a visual, and not at all when there is
    none. *)
Theorem activate_tolerates_missing_visual (W : World) :
  let window := length (widgets W) in
  let Wa := (my_application_activate (with_rgba_visual true W)).2 in
  let Wb := (my_application_activate (with_rgba_visual false W)).2 in
  (my_application_activate W).2
    = (if rgba_visual (display W) then Wa else Wb) /\
  self Wa = self Wb /\
  widgets Wa = widgets Wb /\
  connections Wa = connections Wb /\
  xprops Wa = xprops Wb /\
  exists before after,
    drop (length (log W)) (log Wb) = before ++ after /\
    drop (length (log W)) (log Wa)
      = before ++ c_gtk_widget_set_visual window :: after /\
    last before = Some (c_gtk_widget_set_app_paintable window true) /\
    head after = Some (c_gtk_window_set_default_size window
                         (window_width (self Wa)) (window_height (self Wa))) /\
    (forall w, c_gtk_widget_set_visual w ∉ before ++ after).
Proof.
  intros window Wa Wb. subst Wa Wb.
  split.
  { pose proof (with_rgba_visual_id W) as Hid.
    destruct (rgba_visual (display W)); rewrite Hid; reflexivity. }
  rewrite !my_application_activate_eq.
  cbn [snd activated with_rgba_visual display self widgets connections
       xprops log].
  unfold activate_calls, activate_height, activate_width, activate_margin,
    activate_y, fresh_window.
  cbn [primary_monitor rgba_visual window_width window_height].
  fold window.
  split; [reflexivity|]. split; [reflexivity|].
  split; [reflexivity|]. split; [reflexivity|].
  rewrite !drop_app_length.
  exists [c_gtk_application_window_new window;
          c_gtk_widget_set_app_paintable window true].
  eexists. split; [reflexivity|]. split; [reflexivity|].
  split; [reflexivity|]. split; [reflexivity|].
  intros w. cbn [app]. rewrite !elem_of_cons, elem_of_nil.
  intros Hin. repeat (destruct Hin as [[=]|Hin]). done.
Qed.

(** *** Emissions, and the worlds the program can reach *)

(** However many handlers a view has, an emission shows its toplevel once
    and for all. *)
Lemma invoke_handlers_widgets (k view : nat) (W : World) :
  widgets (invoke_handlers k view W).2 =
  match k with
  | O => widgets W
  | S _ => alter show_widget
             (toplevel_of (widgets W) (length (widgets W)) view) (widgets W)
  end.
Proof.
  revert W. induction k as [|k IH]; intros W; [done|].
  rewrite invoke_handlers_S, IH. destruct k; [reflexivity|].
  rewrite toplevel_first_frame_done.
  cbn [first_frame_done widgets with_log]. apply alter_show_widget_idem.
Qed.

Lemma invoke_handlers_xprops (k view : nat) (W : World) :
  xprops (invoke_handlers k view W).2 =
  match k with
  | O => xprops W
  | S _ =>
      if x11_branch W (toplevel_of (widgets W) (length (widgets W)) view)
      then x11_props (self W)
             (toplevel_of (widgets W) (length (widgets W)) view) (xprops W)
      else xprops W
  end.
Proof.
  revert W. induction k as [|k IH]; intros W; [done|].
  rewrite invoke_handlers_S, IH. destruct k; [reflexivity|].
  rewrite toplevel_first_frame_done, x11_branch_first_frame_done.
  cbn [first_frame_done widgets with_log xprops self].
  change (x11_branch (with_log (log W ++ [c_first_frame_cb view]) W))
    with (x11_branch W).
  destruct (x11_branch W _); [apply x11_props_idem | done].
Qed.

Lemma handlers_of_connected (W : World) (v : nat) (s : string) :
  (v, s) ∈ connections W -> exists k, handlers_of W v s = S k.
Proof.
  intros Hin. unfold handlers_of.
  assert (Hf : (v, s) ∈ filter (fun c => c = (v, s)) (connections W))
    by (by apply list_elem_of_filter).
  destruct (filter _ _) as [|c l]; [by apply elem_of_nil in Hf|].
  by exists (length l).
Qed.

Lemma docked_app (ws l : list GtkWidget) (v : nat) (y : Z) :
  docked ws v y -> docked (ws ++ l) v y.
Proof.
  intros (window & wv & ww & -> & Hv & ? & ? & Hw & ? & ? & ? & ?).
  exists window, wv, ww.
  repeat split; try done; by apply lookup_app_l_Some.
Qed.

Lemma docked_fresh (ws : list GtkWidget) (D : Display) :
  docked (ws ++ [fresh_window D; fresh_view (length ws)]) (S (length ws))
         (activate_y D).
Proof.
  exists (length ws), (fresh_view (length ws)), (fresh_window D).
  repeat split; try done.
  - rewrite lookup_app_r by lia.
    by replace (S (length ws) - length ws)%nat with 1%nat by lia.
  - by apply list_lookup_middle.
Qed.

Lemma docked_alter_show (ws : list GtkWidget) (i v : nat) (y : Z) :
  docked ws v y -> docked (alter show_widget i ws) v y.
Proof.
  intros (window & wv & ww & -> & Hv & ? & ? & Hw & ? & ? & ? & ?).
  destruct (decide (i = S window)) as [->|Hiv];
    [|destruct (decide (i = window)) as [->|Hiw]].
  - exists window, (show_widget wv), ww.
    repeat split; try done.
    + by rewrite list_lookup_alter_eq, Hv.
    + rewrite list_lookup_alter_ne by lia. done.
  - exists window, wv, (show_widget ww).
    repeat split; try done.
    + by rewrite list_lookup_alter_ne.
    + by rewrite list_lookup_alter_eq, Hw.
    + by apply realized_show_widget.
  - exists window, wv, ww.
    repeat split; try done; by rewrite list_lookup_alter_ne.
Qed.

(** The toplevel of a docked view is the window before it. *)
Lemma toplevel_of_docked (ws : list GtkWidget) (v : nat) (y : Z) :
  docked ws v y -> toplevel_of ws (length ws) v = pred v.
Proof.
  intros (window & wv & ww & -> & Hv & _ & Hpv & Hw & _ & Hpw & _ & _).
  pose proof (lookup_lt_Some _ _ _ Hv) as Hlen.
  destruct (length ws) as [|[|n]]; [lia | lia |].
  cbn [toplevel_of pred]. by rewrite Hv, Hpv, Hw, Hpw.
Qed.

Lemma paired_activated (W : World) : paired W -> paired (activated W).
Proof.
  intros (Hconn & Hlen & _). split; [|split].
  - intros v s. cbn [activated connections widgets display].
    rewrite elem_of_app, list_elem_of_singleton.
    intros [Hin | [= -> ->]].
    + destruct (Hconn v s Hin) as [-> Hdocked]. split; [done|].
      by apply docked_app.
    + split; [done|]. apply docked_fresh.
  - cbn [activated connections widgets]. rewrite !length_app.
    cbn [length]. lia.
  - done.
Qed.

Lemma paired_with_log (l : list call) (W : World) :
  paired W -> paired (with_log l W).
Proof. done. Qed.

Lemma paired_registered (arguments : list string) (W : World) :
  paired W -> paired (registered arguments W).
Proof. intros (Hconn & Hlen & Hgeo). by split. Qed.

Lemma paired_step (W : World) (e : event) : paired W -> paired (step W e).
Proof.
  intros Hp. destruct e as [arguments| |view]; cbn [step].
  - rewrite my_application_local_command_line_eq.
    apply (paired_registered arguments) in Hp.
    destruct (register_error (display W)); cbn [snd].
    + by apply paired_with_log.
    + rewrite my_application_activate_eq. cbn [snd].
      by apply paired_activated, paired_with_log.
  - rewrite my_application_activate_eq. by apply paired_activated.
  - unfold emit_first_frame.
    set (k := handlers_of W view "first-frame").
    destruct (invoke_handlers_frame k view W) as (Hd & Hs & Hc & Hl & _).
    pose proof (invoke_handlers_widgets k view W) as Hw.
    destruct Hp as (Hconn & Hlen & Hgeo). split; [|split].
    + intros v s. rewrite Hc, Hd, Hw. intros Hin.
      destruct (Hconn v s Hin) as [-> Hdocked]. split; [done|].
      destruct k; [done|]. by apply docked_alter_show.
    + by rewrite Hl, Hc.
    + by rewrite Hc, Hs, Hd.
Qed.

Lemma paired_start (D : Display) : paired (start D).
Proof.
  split; [|split]; [|done|done].
  intros v s Hin. cbn in Hin. by apply elem_of_nil in Hin.
Qed.

Lemma paired_run (W : World) (events : list event) :
  paired W -> paired (run W events).
Proof.
  revert W. induction events as [|e events IH]; intros W Hp; [done|].
  apply IH. by apply paired_step.
Qed.

Lemma widgets_after_emission (W : World) (view i : nat) :
  i <> toplevel_of (widgets W) (length (widgets W)) view ->
  widgets (step W (FirstFrame view)) !! i = widgets W !! i.
Proof.
  intros Hne. cbn [step]. unfold emit_first_frame.
  rewrite invoke_handlers_widgets.
  destruct (handlers_of W view "first-frame"); [done|].
  by rewrite list_lookup_alter_ne.
Qed.

Lemma widgets_after_connected_emission (W : World) (view : nat) :
  (view, "first-frame"%string) ∈ connections W ->
  widgets (step W (FirstFrame view)) =
  alter show_widget
        (toplevel_of (widgets W) (length (widgets W)) view) (widgets W).
Proof.
  intros [k Hk]%handlers_of_connected. cbn [step]. unfold emit_first_frame.
  by rewrite invoke_handlers_widgets, Hk.
Qed.

Lemma xprops_after_connected_emission (W : World) (view : nat) :
  (view, "first-frame"%string) ∈ connections W ->
  xprops (step W (FirstFrame view)) =
  if x11_branch W (toplevel_of (widgets W) (length (widgets W)) view)
  then x11_props (self W)
         (toplevel_of (widgets W) (length (widgets W)) view) (xprops W)
  else xprops W.
Proof.
  intros [k Hk]%handlers_of_connected. cbn [step]. unfold emit_first_frame.
  by rewrite invoke_handlers_xprops, Hk.
Qed.

(** In a world the program can reach, the emission on a connected view
    shows the window before it. *)
Lemma shown_after_connected_emission (W : World) (view : nat) :
  paired W ->
  (view, "first-frame"%string) ∈ connections W ->
  shown (step W (FirstFrame view)) (pred view).
Proof.
  intros (Hconn & _) Hin.
  destruct (Hconn _ _ Hin) as [_ Hdocked].
  unfold shown. rewrite (widgets_after_connected_emission W view Hin).
  rewrite (toplevel_of_docked _ _ _ Hdocked).
  destruct Hdocked as (window & wv & ww & -> & _ & _ & _ & Hw & Hc & _).
  cbn [pred]. exists (show_widget ww).
  by rewrite list_lookup_alter_eq, Hw.
Qed.

Lemma x11_branch_docked (W : World) (view : nat) (y : Z) :
  docked (widgets W) view y ->
  x11_branch W (pred view) =
  GDK_WINDOWING_X11 (display W) &&
  match backend (display W) with X11 => true | Wayland => false end.
Proof.
  intros (window & wv & ww & -> & _ & _ & _ & Hw & _ & _ & Hr & _).
  unfold x11_branch. cbn [pred].
  rewrite Hw, realized_show_widget by done. by rewrite andb_true_r.
Qed.

(** Showing a realized window changes its visibility and nothing else. *)
Lemma show_widget_realized (wd : GtkWidget) :
  realized wd = true -> show_widget wd = set_visible true wd.
Proof.
  intros Hr. unfold show_widget, set_visible. rewrite Hr.
  by destruct (wclass wd).
Qed.

(** A view without a handler has none to run. *)
Lemma handlers_of_unconnected (W : World) (v : nat) (s : string) :
  (v, s) ∉ connections W -> handlers_of W v s = 0%nat.
Proof.
  intros Hnot. destruct (handlers_of W v s) eqn:Hk; [done|].
  exfalso. apply Hnot, handlers_of_elem. lia.
Qed.

(** X8: in every world the program can reach, an emission of
    "first-frame" is local to the window of the view.  On a view without a
    handler it changes nothing at all.  On a view with a handler, the one
    widget that changes is the window the view sits in, and of that only
    the visibility (Activate has realized and placed it long before); the
    application object, the connections, every other widget and the
    properties of every other X window stay as they were. *)
Theorem first_frame_emission_is_local (D : Display) (events : list event)
    (view : nat) :
  let W := run (start D) events in
  let W' := step W (FirstFrame view) in
  ((view, "first-frame"%string) ∉ connections W -> W' = W) /\
  self W' = self W /\
  connections W' = connections W /\
  ((view, "first-frame"%string) ∈ connections W ->
   (forall i, i <> pred view -> widgets W' !! i = widgets W !! i) /\
   (exists wd, widgets W !! pred view = Some wd /\
               widgets W' !! pred view = Some (set_visible true wd)) /\
   (forall xid property, xid <> pred view ->
      xprops W' !! (xid, property) = xprops W !! (xid, property))).
Proof.
  intros W W'. subst W'.
  split.
  { intros Hnone%handlers_of_unconnected. cbn [step].
    unfold emit_first_frame. by rewrite Hnone. }
  pose proof (invoke_handlers_frame (handlers_of W view "first-frame") view W)
    as (_ & Hs & Hc & _ & _).
  split; [exact Hs|]. split; [exact Hc|].
  intros Hin.
  assert (Hp : paired W) by apply paired_run, paired_start.
  destruct Hp as (Hconn & _ & _).
  destruct (Hconn _ _ Hin) as [_ Hdocked].
  pose proof (toplevel_of_docked _ _ _ Hdocked) as Htop.
  split; [|split].
  - intros i Hi. apply widgets_after_emission. by rewrite Htop.
  - destruct Hdocked as (window & wv & ww & -> & _ & _ & _ & Hw & _ & _ & Hr
                         & _).
    cbn [pred] in *. exists ww. split; [exact Hw|].
    rewrite (widgets_after_connected_emission W (S window) Hin), Htop.
    rewrite list_lookup_alter_eq, Hw. cbn [fmap option_fmap option_map].
    by rewrite (show_widget_realized ww Hr).
  - intros xid property Hne.
    rewrite (xprops_after_connected_emission W view Hin), Htop.
    destruct (x11_branch W (pred view)); [|done]. unfold x11_props.
    rewrite !lookup_insert_ne by (intros [=]; congruence). done.
Qed.

Lemma first_frame_emission_is_local_witness :
  let W := run (start (full_hd 1 X11)) [Activate] in
  let W' := step W (FirstFrame 1) in
  (forall i, i <> pred 1 -> widgets W' !! i = widgets W !! i) /\
  (exists wd, widgets W !! pred 1 = Some wd /\
              widgets W' !! pred 1 = Some (set_visible true wd)) /\
  (forall xid property, xid <> pred 1 ->
     xprops W' !! (xid, property) = xprops W !! (xid, property)).
Proof.
  intros W W'.
  destruct (first_frame_emission_is_local (full_hd 1 X11) [Activate] 1)
    as (_ & _ & _ & Hlocal).
  apply Hlocal. vm_compute. left.
Defined.

(** X9: what every reachable world looks like.  After any sequence of
    command-line, activate and first-frame events from the start of the
    process: each connected handler is a "first-frame" handler of a view
    that is the child of the window created just before it, a realized,
    parentless window placed at [x = 0] and the [y] the display's
    geometry gives; there are two widgets for each handler; and as soon as a
    handler exists, the application object holds the display's geometry. *)
Theorem reachable_worlds_are_paired (D : Display) (events : list event) :
  paired (run (start D) events) /\
  display (run (start D) events) = D.
Proof.
  split; [apply paired_run, paired_start | apply display_run].
Qed.

(** X10: in any reachable world, the first frame of a connected view puts
    the window before it on screen and leaves every other widget alone; on
    an X11 display it leaves the window with the sticky/above state, the
    partial strut and the legacy strut computed from the display's
    geometry; on another display it writes no property. *)
Theorem connected_view_reveals_its_window (D : Display)
    (events : list event) (view : nat) :
  let W := run (start D) events in
  let W' := step W (FirstFrame view) in
  let strut := bottom_strut (activate_height D) (activate_width D)
                            (activate_margin D) in
  (view, "first-frame"%string) ∈ connections W ->
  shown W' (pred view) /\
  (forall i, i <> pred view -> widgets W' !! i = widgets W !! i) /\
  (GDK_WINDOWING_X11 D = true -> backend D = X11 ->
   xprops W' !! (pred view, "_NET_WM_STATE"%string) = Some sticky_above /\
   xprops W' !! (pred view, "_NET_WM_STRUT_PARTIAL"%string)
     = Some {| prop_type := XA_CARDINAL; prop_format := 32;
               prop_data := XLongs strut |} /\
   xprops W' !! (pred view, "_NET_WM_STRUT"%string)
     = Some {| prop_type := XA_CARDINAL; prop_format := 32;
               prop_data := XLongs (take 4 strut) |}) /\
  (GDK_WINDOWING_X11 D = false \/ backend D = Wayland ->
   xprops W' = xprops W).
Proof.
  intros W W' strut Hin. subst W' strut.
  assert (Hp : paired W) by apply paired_run, paired_start.
  assert (HD : display W = D) by apply display_run.
  pose proof Hp as (Hconn & _ & Hgeo).
  destruct (Hconn _ _ Hin) as [_ Hdocked].
  pose proof (toplevel_of_docked _ _ _ Hdocked) as Htop.
  pose proof (x11_branch_docked W view _ Hdocked) as Hbranch.
  destruct Hgeo as (Hh & Hw & Hm).
  { intros Hnil. rewrite Hnil in Hin. by apply elem_of_nil in Hin. }
  split; [by apply shown_after_connected_emission|].
  split.
  { intros i Hi. apply widgets_after_emission. by rewrite Htop. }
  rewrite (xprops_after_connected_emission W view Hin), Htop, Hbranch, HD.
  split.
  - intros -> ->. cbn [andb]. unfold x11_props, strut_partial, strut_legacy.
    rewrite Hh, Hw, Hm, HD.
    split; [|split].
    + rewrite !lookup_insert_ne by (intros [=]). apply lookup_insert_eq.
    + rewrite lookup_insert_ne by (intros [=]). apply lookup_insert_eq.
    + apply lookup_insert_eq.
  - intros [-> | ->]; [done|]. by rewrite andb_false_r.
Qed.

Lemma connected_view_reveals_its_window_witness :
  let W := run (start (full_hd 1 X11)) [Activate] in
  shown (step W (FirstFrame 1)) 0.
Proof.
  apply (connected_view_reveals_its_window (full_hd 1 X11) [Activate] 1).
  vm_compute. left.
Defined.




(** X12: activations do not interfere.  After two activations in a row,
    the first frame of the first view shows the first window and leaves the
    second window hidden; the first frame of the second view then shows the
    second window, and the first stays shown. *)
Theorem activations_are_independent (D : Display) (events : list event) :
  let W := run (start D) events in
  let a := length (widgets W) in
  let W2 := run W [Activate; Activate] in
  let W3 := step W2 (FirstFrame (S a)) in
  let W4 := step W3 (FirstFrame (S (S (S a)))) in
  length (widgets W2) = S (S (S (S a))) /\
  ~ shown W2 a /\ ~ shown W2 (S (S a)) /\
  shown W3 a /\ ~ shown W3 (S (S a)) /\
  shown W4 a /\ shown W4 (S (S a)).
Proof.
  intros W a W2 W3 W4.
  assert (Hp : paired W) by apply paired_run, paired_start.
  assert (HW2 : W2 = activated (activated W)).
  { subst W2. cbn [run foldl step].
    by rewrite !my_application_activate_eq. }
  assert (Hp2 : paired W2) by (subst W2; by apply paired_run).
  assert (Hp3 : paired W3) by (subst W3; by apply paired_step).
  assert (Hws : widgets W2 = (widgets W ++ [fresh_window (display W);
                                             fresh_view a])
                             ++ [fresh_window (display W);
                                 fresh_view (S (S a))]).
  { rewrite HW2. cbn [activated widgets display]. rewrite length_app.
    cbn [length]. fold a. by replace (a + 2)%nat with (S (S a)) by lia. }
  assert (Hcs : connections W2 = (connections W
                                  ++ [(S a, "first-frame"%string)])
                                 ++ [(S (S (S a)), "first-frame"%string)]).
  { rewrite HW2. cbn [activated connections widgets]. rewrite length_app.
    cbn [length]. fold a. by replace (a + 2)%nat with (S (S a)) by lia. }
  assert (H0 : widgets W2 !! a = Some (fresh_window (display W))).
  { rewrite Hws. apply lookup_app_l_Some. by apply list_lookup_middle. }
  assert (H2 : widgets W2 !! S (S a) = Some (fresh_window (display W))).
  { rewrite Hws. apply list_lookup_middle. rewrite length_app. cbn [length].
    unfold a. lia. }
  assert (Hin1 : (S a, "first-frame"%string) ∈ connections W2).
  { rewrite Hcs, !elem_of_app, !list_elem_of_singleton. tauto. }
  assert (Hin2 : (S (S (S a)), "first-frame"%string) ∈ connections W2).
  { rewrite Hcs, !elem_of_app, !list_elem_of_singleton. tauto. }
  assert (Htop1 : toplevel_of (widgets W2) (length (widgets W2)) (S a) = a).
  { destruct Hp2 as (Hconn & _). destruct (Hconn _ _ Hin1) as [_ Hd].
    by rewrite (toplevel_of_docked _ _ _ Hd). }
  assert (Hc3 : connections W3 = connections W2).
  { subst W3. cbn [step]. unfold emit_first_frame.
    by destruct (invoke_handlers_frame
                   (handlers_of W2 (S a) "first-frame") (S a) W2)
      as (_ & _ & -> & _). }
  assert (Htop2 : toplevel_of (widgets W3) (length (widgets W3))
                              (S (S (S a))) = S (S a)).
  { destruct Hp3 as (Hconn & _). rewrite <- Hc3 in Hin2.
    destruct (Hconn _ _ Hin2) as [_ Hd].
    by rewrite (toplevel_of_docked _ _ _ Hd). }
  split.
  { rewrite Hws, !length_app. cbn [length]. unfold a. lia. }
  split.
  { intros (wd & Hwd & _ & Hv). rewrite H0 in Hwd. by injection Hwd as <-. }
  split.
  { intros (wd & Hwd & _ & Hv). rewrite H2 in Hwd. by injection Hwd as <-. }
  split.
  { apply (shown_after_connected_emission W2 (S a) Hp2 Hin1). }
  split.
  { intros (wd & Hwd & _ & Hv). subst W3.
    rewrite widgets_after_emission in Hwd by (rewrite Htop1; lia).
    rewrite H2 in Hwd. by injection Hwd as <-. }
  split.
  { assert (Hs3 : shown W3 a)
      by apply (shown_after_connected_emission W2 (S a) Hp2 Hin1).
    destruct Hs3 as (wd & Hwd & Hc & Hv). exists wd. subst W4.
    rewrite widgets_after_emission by (rewrite Htop2; lia). done. }
  rewrite <- Hc3 in Hin2.
  apply (shown_after_connected_emission W3 (S (S (S a))) Hp3 Hin2).
Qed.

End RunnerExtra.

(** ** my_application_dispose *)

Module TeardownSpec.
Import Runner RunnerSpec Teardown.

Lemma dispose_disposed (P : Process) :
  dart_entrypoint_arguments (self (world P)) = None ->
  my_application_dispose P =
  {| world := world P; live_strv := live_strv P;
     strfreev_calls := strfreev_calls P;
     parent_disposals := S (parent_disposals P) |}.
Proof. intros Hnull. unfold my_application_dispose. by rewrite Hnull. Qed.

Lemma dispose_clears (P : Process) :
  dart_entrypoint_arguments (self (world (my_application_dispose P))) = None.
Proof.
  unfold my_application_dispose.
  by destruct (dart_entrypoint_arguments (self (world P))) eqn:Hargs.
Qed.

Lemma dispose_again (P : Process) (n : nat) :
  dart_entrypoint_arguments (self (world P)) = None ->
  Nat.iter n my_application_dispose P =
  {| world := world P; live_strv := live_strv P;
     strfreev_calls := strfreev_calls P;
     parent_disposals := (n + parent_disposals P)%nat |}.
Proof.
  intros Hnull. induction n as [|n IH]; [by destruct P|].
  rewrite Nat.iter_succ, IH. by rewrite dispose_disposed.
Qed.

(** X13: dispose releases the stored entry-point arguments once, however
    often it runs.  After one or more runs the pointer is [NULL];
    [g_strfreev] has been called once if a vector was stored and not at
    all otherwise; every run chains up to the parent class; widgets,
    handlers, window properties, geometry and log are not touched.  In
    particular a process that took its command line once holds no vector
    after being disposed of. *)
Theorem dispose_frees_arguments_once (P : Process) (n : nat) :
  let P' := Nat.iter (S n) my_application_dispose P in
  let stored := dart_entrypoint_arguments (self (world P)) in
  dart_entrypoint_arguments (self (world P')) = None /\
  strfreev_calls P' =
    (strfreev_calls P + match stored with Some _ => 1 | None => 0 end)%nat /\
  live_strv P' =
    match stored with Some _ => pred (live_strv P) | None => live_strv P end /\
  parent_disposals P' = (S n + parent_disposals P)%nat /\
  same_toolkit_state
    (world P') (with_self (self (world P')) (world P)) /\
  window_height (self (world P')) = window_height (self (world P)) /\
  window_width (self (world P')) = window_width (self (world P)) /\
  bottom_margin (self (world P')) = bottom_margin (self (world P)) /\
  log (world P') = log (world P) /\
  (forall D arguments,
     P = (local_command_line arguments (launch D)).2 ->
     live_strv P' = 0%nat /\ strfreev_calls P' = 1%nat).
Proof.
  intros P' stored. subst P'.
  rewrite Nat.iter_succ_r.
  rewrite (dispose_again _ n (dispose_clears P)).
  cbn [world live_strv strfreev_calls parent_disposals].
  assert (Hcmd : forall D arguments,
            P = (local_command_line arguments (launch D)).2 ->
            stored <> None /\ live_strv P = 1%nat /\
            strfreev_calls P = 0%nat).
  { intros D arguments ->. subst stored. unfold local_command_line.
    rewrite my_application_local_command_line_eq.
    destruct (register_error (display (world (launch D))));
      cbn [snd world live_strv strfreev_calls launch]; [done|].
    by rewrite my_application_activate_eq. }
  unfold my_application_dispose. fold stored.
  destruct stored as [vector|] eqn:Hstored;
    cbn [world live_strv strfreev_calls parent_disposals].
  - split; [done|]. split; [lia|]. split; [done|]. split; [lia|].
    split; [by repeat split|]. split; [done|]. split; [done|].
    split; [done|]. split; [done|].
    intros D arguments HP. destruct (Hcmd D arguments HP) as (_ & -> & ->).
    done.
  - split; [done|]. split; [lia|]. split; [done|]. split; [lia|].
    split; [by repeat split|]. split; [done|]. split; [done|].
    split; [done|]. split; [done|].
    intros D arguments HP. by destruct (Hcmd D arguments HP) as ([] & _).
Qed.

Lemma dispose_frees_arguments_once_witness :
  let P := (local_command_line ["dock"; "--verbose"]%string
              (launch (full_hd 1 X11))).2 in
  let P' := Nat.iter 3 my_application_dispose P in
  live_strv P' = 0%nat /\ strfreev_calls P' = 1%nat.
Proof.
  apply (dispose_frees_arguments_once
           (local_command_line ["dock"; "--verbose"]%string
              (launch (full_hd 1 X11))).2 2
           ) with (D := full_hd 1 X11)
                  (arguments := ["dock"; "--verbose"]%string).
  reflexivity.
Defined.

End TeardownSpec.
